(** * Product configuration lifecycle of [services/service_mgmt.py]

    A shallow embedding of [ServiceManager] (enable / disable / status of
    Google services per product code) and of the document container it
    talks to, followed by the properties of the three operations. *)

From Stdlib Require Import ZArith Ascii String.
From stdpp Require Import base option list strings gmap fin_maps.

Local Open Scope string_scope.

(** ** Python values

    The manager handles JSON data only: request bodies decoded by the HTTP
    layer and documents of the container.  Numbers are integers here; the
    operations never compute with them. *)

#[warnings="-register-all"]
Inductive value : Type :=
| VNone
| VBool (b : bool)
| VNum (n : Z)
| VStr (s : string)
| VList (l : list value)
| VDict (d : gmap string value).

(** A Python [dict] with [str] keys. *)
Abbreviation dict := (gmap string value).

(** Exceptions the operations can meet.  All of them derive from Python's
    [Exception], so [except Exception] catches each one. *)
Inductive exn : Type :=
| Exception (msg : string)
| KeyError (key : string)
| AttributeError (msg : string)
| TypeError (msg : string)
| CosmosResourceNotFoundError
| CosmosHttpResponseError (status : Z).

(** Outcome of a call: an exception raised, or a value returned. *)
Definition result (A : Type) : Type := exn + A.

Definition Raise {A : Type} (e : exn) : result A := inl e.
Definition Return {A : Type} (a : A) : result A := inr a.

Definition rbind {A B : Type} (r : result A) (k : A → result B) : result B :=
  match r with
  | inl e => inl e
  | inr a => k a
  end.

Notation "'let!' x ':=' r 'in' k" := (rbind r (fun x => k))
  (at level 10, x name, r at level 100, k at level 200, only parsing).

(** ** Python primitives used by the manager *)

Module Py.

(** [str.lower()] on ASCII letters.  Product codes are ASCII identifiers
    such as TERP or GRID; bytes from 128 on are left as they are. *)
Definition lower_char (c : ascii) : ascii :=
  let n := nat_of_ascii c in
  if (65 <=? n)%nat && (n <=? 90)%nat then ascii_of_nat (n + 32) else c.

Fixpoint lower (s : string) : string :=
  match s with
  | EmptyString => EmptyString
  | String c s' => String (lower_char c) (lower s')
  end.

(** [d.get(key, default)] on a dict. *)
Definition dict_get (d : dict) (key : string) (dflt : value) : value :=
  default dflt (d !! key).

(** [d.get(key)]: [None] when the key is absent. *)
Definition dict_get_none (d : dict) (key : string) : value :=
  default VNone (d !! key).

(** [v.get(key, default)] on an arbitrary value: only a dict has [get]. *)
Definition get (v : value) (key : string) (dflt : value) : result value :=
  match v with
  | VDict d => Return (dict_get d key dflt)
  | _ => Raise (AttributeError "get")
  end.

(** One-character strings of a string, as [for s in "abc"] yields them. *)
Fixpoint chars (s : string) : list value :=
  match s with
  | EmptyString => []
  | String c s' => VStr (String c EmptyString) :: chars s'
  end.

(** [for s in v]: the elements of a list, the characters of a string, the
    keys of a dict (enumerated in the order of the map, which does not
    record insertion order); other values are not iterable. *)
Definition iter (v : value) : result (list value) :=
  match v with
  | VList l => Return l
  | VStr s => Return (chars s)
  | VDict d => Return ((λ kv : string * value, VStr kv.1) <$> map_to_list d)
  | _ => Raise (TypeError "object is not iterable")
  end.

(** [s in services] for a list of strings: a value equals a string only if
    it is that string. *)
Definition in_strs (s : value) (services : list string) : bool :=
  match s with
  | VStr x => bool_decide (x ∈ services)
  | _ => false
  end.

(** [name in services] for a string literal [name]. *)
Definition str_in (name : string) (services : list string) : bool :=
  bool_decide (name ∈ services).

(** [v[key] = x] on the value found under [config["apis"]]: item assignment
    with a string key works on a dict only. *)
Definition setitem (v : value) (key : string) (x : value) : result value :=
  match v with
  | VDict d => Return (VDict (<[key := x]> d))
  | _ => Raise (TypeError "object does not support item assignment")
  end.

(** [d[key]]: raises [KeyError] when the key is absent. *)
Definition getitem (d : dict) (key : string) : result value :=
  match d !! key with
  | Some v => Return v
  | None => Raise (KeyError key)
  end.



End Py.

(** ** The document container

    [azure.cosmos.ContainerProxy], as far as the manager uses it.
    [read_item item partition_key] returns the document or raises;
    [upsert_item body] replaces or creates the document and gives the new
    contents of the container, or raises and writes nothing. *)

Class ContainerProxy (C : Type) : Type := {
  read_item : C → string → string → result dict;
  upsert_item : C → dict → result C
}.

(** An in-memory container following the store contract: one document per
    (partition key, id), the partition key being the [productCode] field of
    the document.  Reading an absent document raises not-found; a body
    without a string [id] or partition key is refused. *)
Module Mem.

Record t : Type := Build { items : gmap (string * string) dict }.

Definition empty : t := {| items := ∅ |}.

Definition read (c : t) (item partition_key : string) : result dict :=
  match items c !! (partition_key, item) with
  | Some d => Return d
  | None => Raise CosmosResourceNotFoundError
  end.

Definition upsert (c : t) (body : dict) : result t :=
  match body !! "id", body !! "productCode" with
  | Some (VStr i), Some (VStr pk) =>
      Return {| items := <[(pk, i) := body]> (items c) |}
  | _, _ => Raise (CosmosHttpResponseError 400)
  end.

End Mem.

#[export] Instance mem_container : ContainerProxy Mem.t :=
  {| read_item := Mem.read; upsert_item := Mem.upsert |}.

(** ** ServiceManager *)

(** The fixed vocabulary of services. *)
Definition known_services : list string :=
  ["analytics"; "tags"; "adsense"; "ads"].

(** The primary key of a product's document: the lowercased product code
    followed by the fixed suffix. *)
Definition config_id (product_code : string) : string :=
  Py.lower product_code +:+ "-google-config".

Section Manager.

Context {C : Type} `{!ContainerProxy C}.

(** [self.container] is [None] when the client could not be built at
    start-up (degraded mode). *)
Record ServiceManager : Type := { container : option C }.

(** Lines 58 to 78 of [enable_apis]: the document built from the
    arguments before the upsert; [now] is [datetime.utcnow().isoformat()]. *)
Definition enable_document (product_code : string) (services : list string)
    (config : dict) (now : string) : dict :=
  let config_id := Py.lower product_code +:+ "-google-config" in
  let product_config : dict :=
    <["id" := VStr config_id]>
    (<["productCode" := VStr product_code]>
    (<["productName" := Py.dict_get config "productName" (VStr product_code)]>
    (<["apis" := VDict {["enabled" := VList (VStr <$> services)]}]>
    (<["updatedAt" := VStr now]> ∅)))) in
  let product_config :=
    if Py.str_in "analytics" services
    then <["analytics" := Py.dict_get config "analytics" (VDict ∅)]> product_config
    else product_config in
  let product_config :=
    if Py.str_in "tags" services
    then <["tags" := Py.dict_get config "tags" (VDict ∅)]> product_config
    else product_config in
  let product_config :=
    if Py.str_in "adsense" services
    then <["adsense" := Py.dict_get config "adsense" (VDict ∅)]> product_config
    else product_config in
  let product_config :=
    if Py.str_in "ads" services
    then <["ads" := Py.dict_get config "ads" (VDict ∅)]> product_config
    else product_config in
  product_config.

(** [enable_apis] *)
Definition enable_apis (self : ServiceManager) (product_code : string)
    (services : list string) (config : dict) (now : string)
    : result dict * ServiceManager :=
  match container self with
  | None => (Raise (Exception "Cosmos DB not initialized"), self)
  | Some c =>
      let config_id := Py.lower product_code +:+ "-google-config" in
      let product_config := enable_document product_code services config now in
      match upsert_item c product_config with
      | inl e => (Raise e, self)
      | inr c' =>
          (Return
             (<["success" := VBool true]>
             (<["productCode" := VStr product_code]>
             (<["enabledServices" := VList (VStr <$> services)]>
             (<["configId" := VStr config_id]> ∅)))),
           {| container := Some c' |})
      end
  end.

(** The read-modify part of [disable_apis], between [read_item] and
    [upsert_item]: the reduced list and the document to write. *)
Definition disable_update (config : dict) (services : list string)
    (now : string) : result (list value * dict) :=
  let! enabled := Py.get (Py.dict_get config "apis" (VDict ∅)) "enabled" (VList []) in
  let! enabled := Py.iter enabled in
  let enabled := filter (λ s, negb (Py.in_strs s services)) enabled in
  let! apis := Py.getitem config "apis" in
  let! apis := Py.setitem apis "enabled" (VList enabled) in
  let config := <["apis" := apis]> config in
  let config := <["updatedAt" := VStr now]> config in
  Return (enabled, config).

(** [disable_apis] *)
Definition disable_apis (self : ServiceManager) (product_code : string)
    (services : list string) (now : string)
    : result dict * ServiceManager :=
  match container self with
  | None => (Raise (Exception "Cosmos DB not initialized"), self)
  | Some c =>
      let config_id := Py.lower product_code +:+ "-google-config" in
      match read_item c config_id product_code with
      | inl e => (Raise e, self)
      | inr config =>
          match disable_update config services now with
          | inl e => (Raise e, self)
          | inr (enabled, config) =>
              match upsert_item c config with
              | inl e => (Raise e, self)
              | inr c' =>
                  (Return
                     (<["success" := VBool true]>
                     (<["productCode" := VStr product_code]>
                     (<["disabledServices" := VList (VStr <$> services)]>
                     (<["remainingServices" := VList enabled]> ∅)))),
                   {| container := Some c' |})
              end
          end
      end
  end.

(** The dict [get_status] returns for a document that was read. *)
Definition status_found (product_code : string) (config : dict)
    : result dict :=
  let! enabled := Py.get (Py.dict_get config "apis" (VDict ∅)) "enabled" (VList []) in
  let! analytics := Py.get (Py.dict_get config "analytics" (VDict ∅)) "enabled" (VBool false) in
  let! tags := Py.get (Py.dict_get config "tags" (VDict ∅)) "enabled" (VBool false) in
  let! adsense := Py.get (Py.dict_get config "adsense" (VDict ∅)) "enabled" (VBool false) in
  let! ads := Py.get (Py.dict_get config "ads" (VDict ∅)) "enabled" (VBool false) in
  Return
    (<["productCode" := VStr product_code]>
    (<["productName" := Py.dict_get_none config "productName"]>
    (<["enabledServices" := enabled]>
    (<["analytics" := analytics]>
    (<["tags" := tags]>
    (<["adsense" := adsense]>
    (<["ads" := ads]>
    (<["updatedAt" := Py.dict_get_none config "updatedAt"]> ∅)))))))).

(** The dict [get_status] returns from its [except Exception] branch. *)
Definition status_default (product_code : string) : dict :=
  <["productCode" := VStr product_code]>
  (<["enabledServices" := VList []]>
  (<["analytics" := VBool false]>
  (<["tags" := VBool false]>
  (<["adsense" := VBool false]>
  (<["ads" := VBool false]> ∅))))).

(** [get_status]: the inner [try] covers the read and the projection; any
    exception raised there gives the default status. *)
Definition get_status (self : ServiceManager) (product_code : string)
    : result dict :=
  match container self with
  | None => Raise (Exception "Cosmos DB not initialized")
  | Some c =>
      let config_id := Py.lower product_code +:+ "-google-config" in
      match
        (let! config := read_item c config_id product_code in
         status_found product_code config)
      with
      | inr status => Return status
      | inl _ => Return (status_default product_code)
      end
  end.

End Manager.

Arguments ServiceManager C : clear implicits.

(** ** Vocabulary of the statements *)

(** A manager whose client was built, over the in-memory container. *)
Definition manager_of (c : Mem.t) : ServiceManager Mem.t :=
  {| container := Some c |}.

(** A manager whose client could not be built. *)
Definition uninitialized {C : Type} : ServiceManager C :=
  {| container := None |}.

(** The document stored for a product code: the one under its partition key
    and its config id. *)
Definition stored (m : ServiceManager Mem.t) (product_code : string)
    : option dict :=
  c ← container m; Mem.items c !! (product_code, config_id product_code).

(** [enabledServices] of a document: what it holds under [apis.enabled]. *)
Definition enabled_of (d : dict) : option value :=
  match d !! "apis" with
  | Some (VDict apis) => apis !! "enabled"
  | _ => None
  end.

(** The services of the vocabulary for which a document carries a settings
    sub-object. *)
Definition settings_keys (d : dict) : list string :=
  filter (λ s, is_Some (d !! s)) known_services.

(** A document as the manager writes them: filed under its own [id] and
    [productCode], with a list of service names under [apis.enabled]. *)
Definition wf_doc (partition_key item : string) (d : dict) : Prop :=
  d !! "id" = Some (VStr item) ∧
  d !! "productCode" = Some (VStr partition_key) ∧
  ∃ names, enabled_of d = Some (VList (VStr <$> names)).

Definition wf_store (c : Mem.t) : Prop :=
  ∀ partition_key item d,
    Mem.items c !! (partition_key, item) = Some d →
    wf_doc partition_key item d.

(** Containers the manager can produce: from the empty one, by calls of
    [enable_apis] and [disable_apis] that return. *)
Inductive reachable : Mem.t → Prop :=
| reachable_empty : reachable Mem.empty
| reachable_enable c c' product_code services config now r :
    reachable c →
    enable_apis (manager_of c) product_code services config now
      = (Return r, manager_of c') →
    reachable c'
| reachable_disable c c' product_code services now r :
    reachable c →
    disable_apis (manager_of c) product_code services now
      = (Return r, manager_of c') →
    reachable c'.

(** The settings of a document stay within its enabled services: each
    service of the vocabulary that carries a settings sub-object is listed
    under [apis.enabled]. *)
Definition settings_within_enabled (d : dict) : Prop :=
  ∃ l, enabled_of d = Some (VList l) ∧
       ∀ s, s ∈ settings_keys d → VStr s ∈ l.

(** A request enabling analytics and tags, and the document found in the
    container once analytics has been disabled again. *)
Definition terp_config : dict :=
  {[ "analytics" := VDict {[ "propertyId" := VStr "G-1" ]};
     "tags" := VDict {[ "containerId" := VStr "GTM-1" ]} ]}.

Definition terp_after_disable : dict :=
  {[ "id" := VStr "terp-google-config";
     "productCode" := VStr "TERP";
     "productName" := VStr "TERP";
     "apis" := VDict {[ "enabled" := VList [VStr "tags"] ]};
     "updatedAt" := VStr "2026-01-02T00:00:00";
     "analytics" := VDict {[ "propertyId" := VStr "G-1" ]};
     "tags" := VDict {[ "containerId" := VStr "GTM-1" ]} ]}.

(** The container after analytics and tags have been enabled for TERP. *)
Definition terp_store : Mem.t :=
  {| Mem.items :=
       <[("TERP", config_id "TERP") :=
           enable_document "TERP" ["analytics"; "tags"] terp_config
             "2026-01-01T00:00:00"]> ∅ |}.

(** The request of the end-to-end scenario. *)
Definition grid_config : dict :=
  {[ "analytics" := VDict {[ "propertyId" := VStr "G-1" ]};
     "ads" := VDict {[ "customerId" := VStr "123" ]} ]}.

(** The status the code returns at the end of that scenario's first step. *)
Definition grid_status : dict :=
  {[ "productCode" := VStr "GRID";
     "productName" := VStr "GRID";
     "enabledServices" := VList [VStr "analytics"; VStr "ads"];
     "analytics" := VBool false;
     "tags" := VBool false;
     "adsense" := VBool false;
     "ads" := VBool false;
     "updatedAt" := VStr "2026-01-01T00:00:00" ]}.

(** The request body of the enable test of [tests/test_integration.py]. *)
Definition test_config : dict :=
  {[ "productName" := VStr "Test Product";
     "analytics" := VDict {[ "propertyId" := VStr "G-TEST123";
                             "measurementId" := VStr "G-TEST123";
                             "enabled" := VBool true ]} ]}.

(** ** Letter case of product codes *)





(** ** Further containers and documents *)

(** A replica that serves reads from an in-memory container and refuses
    every write. *)
Module ReadOnly.

Record t : Type := Build { replica : Mem.t }.

Definition read (c : t) (item partition_key : string) : result dict :=
  Mem.read (replica c) item partition_key.

Definition upsert (c : t) (body : dict) : result t :=
  Raise (CosmosHttpResponseError 403).

End ReadOnly.

#[export] Instance readonly_container : ContainerProxy ReadOnly.t :=
  {| read_item := ReadOnly.read; upsert_item := ReadOnly.upsert |}.

(** What holds of every document in a container the manager has produced:
    it is filed under the config id of its product code, it is well formed,
    and it carries a time stamp and a product name. *)
Definition store_inv (c : Mem.t) : Prop :=
  ∀ partition_key item d,
    Mem.items c !! (partition_key, item) = Some d →
    item = config_id partition_key ∧
    wf_doc partition_key item d ∧
    (∃ t, d !! "updatedAt" = Some (VStr t)) ∧
    is_Some (d !! "productName").

(** A request whose analytics settings are a string instead of an object. *)
Definition bad_config : dict := {[ "analytics" := VStr "on" ]}.

(** A document without an [apis] entry, as another writer could leave it,
    in a container of its own. *)
Definition legacy_doc : dict :=
  {[ "id" := VStr "old-google-config"; "productCode" := VStr "OLD" ]}.

Definition legacy_store : Mem.t :=
  {| Mem.items := {[ ("OLD", "old-google-config") := legacy_doc ]} |}.

(** The flag [get_status] reports for a service: the [enabled] field of its
    settings in the document, [False] without one. *)
Definition settings_flag (d : dict) (s : string) : value :=
  match d !! s with
  | Some (VDict m) => default (VBool false) (m !! "enabled")
  | _ => VBool false
  end.

(** The container after the enable request of the integration test. *)
Definition test_store : Mem.t :=
  {| Mem.items :=
       <[("TEST", config_id "TEST") :=
           enable_document "TEST" ["analytics"] test_config
             "2026-01-01T00:00:00"]> ∅ |}.

(** The documents of the container a manager holds, none without one. *)
Definition items_of (m : ServiceManager Mem.t) : gmap (string * string) dict :=
  from_option Mem.items ∅ (container m).

(** ** Construction of the manager

    [ServiceManager.__init__] and [_initialize_cosmos]. *)

Section Init.

Context {Credential Client Database C : Type}.

(** The constructors of [azure.identity] and [azure.cosmos] called at
    start-up; each of them may raise. *)
Record CosmosSdk : Type := {
  DefaultAzureCredential : result Credential;
  CosmosClient : string → Credential → result Client;
  get_database_client : Client → string → result Database;
  get_container_client : Database → string → result C
}.

(** [os.environ.get(key, default)] *)
Definition environ_get (environ : gmap string string) (key dflt : string)
    : string :=
  default dflt (environ !! key).

(** The two attributes of a [ServiceManager] object. *)
Record ServiceManagerAttrs : Type := {
  cosmos_client : option Client;
  container_attr : option C
}.

(** [_initialize_cosmos]: the [try] block assigns the client, then the
    container; an exception at any step is logged and swallowed, and the
    attributes assigned so far stay. *)
Definition _initialize_cosmos (sdk : CosmosSdk) (environ : gmap string string)
    (self : ServiceManagerAttrs) : ServiceManagerAttrs :=
  let cosmos_endpoint :=
    environ_get environ "COSMOS_ENDPOINT"
      "https://cosmos-terprint-dev.documents.azure.com:443/" in
  let database_name := environ_get environ "COSMOS_DATABASE" "TerprintAI" in
  match DefaultAzureCredential sdk with
  | inl _ => self
  | inr credential =>
      match CosmosClient sdk cosmos_endpoint credential with
      | inl _ => self
      | inr client =>
          let self :=
            {| cosmos_client := Some client;
               container_attr := container_attr self |} in
          match get_database_client sdk client database_name with
          | inl _ => self
          | inr db =>
              match get_container_client sdk db "google_configs" with
              | inl _ => self
              | inr container =>
                  {| cosmos_client := cosmos_client self;
                     container_attr := Some container |}
              end
          end
      end
  end.

(** [ServiceManager()]: both attributes start as [None]. *)
Definition ServiceManager_new (sdk : CosmosSdk) (environ : gmap string string)
    : ServiceManager C :=
  let self := {| cosmos_client := None; container_attr := None |} in
  let self := _initialize_cosmos sdk environ self in
  {| container := container_attr self |}.

(** The four calls of [_initialize_cosmos] in a row, as one fallible
    step. *)
Definition connect (sdk : CosmosSdk) (environ : gmap string string)
    : result C :=
  let! credential := DefaultAzureCredential sdk in
  let! client :=
    CosmosClient sdk
      (environ_get environ "COSMOS_ENDPOINT"
         "https://cosmos-terprint-dev.documents.azure.com:443/")
      credential in
  let! db :=
    get_database_client sdk client
      (environ_get environ "COSMOS_DATABASE" "TerprintAI") in
  get_container_client sdk db "google_configs".

End Init.

Arguments CosmosSdk : clear implicits.
Arguments ServiceManagerAttrs : clear implicits.

(** ** Strings of the HTTP layer *)

Module Str.

(** [s.split(sep)] for a separator of one character. *)
Fixpoint split (sep : ascii) (s : string) : list string :=
  match s with
  | EmptyString => [EmptyString]
  | String c s' =>
      if decide (c = sep) then EmptyString :: split sep s'
      else match split sep s' with
           | [] => [String c EmptyString]
           | w :: ws => String c w :: ws
           end
  end.

(** [sep.join(l)] *)
Fixpoint join (sep : string) (l : list string) : string :=
  match l with
  | [] => EmptyString
  | [w] => w
  | w :: ws => w +:+ sep +:+ join sep ws
  end.

(** The characters of a string. *)
Fixpoint chars (s : string) : list ascii :=
  match s with
  | EmptyString => []
  | String c s' => c :: chars s'
  end.

(** [bool(s)]: a string is falsy when it is empty. *)
Definition truthy (s : string) : bool :=
  match s with
  | EmptyString => false
  | String _ _ => true
  end.

End Str.

(** ** AnalyticsManager, as far as the report route uses it
    ([services/analytics.py]) *)

Section Analytics.

Context {AdminClient DataClient : Type}.

Record AnalyticsManager : Type := {
  admin_client : option AdminClient;
  data_client : option DataClient
}.

(** [run_report]: the request object is built from the arguments (strings,
    which its constructors accept) and is not sent, the call being a TODO in
    the source; the arguments are echoed with an empty list of rows. *)
Definition run_report (self : AnalyticsManager) (property_id : string)
    (dimensions metrics : list string) (date_range : dict) : result dict :=
  match data_client self with
  | None => Raise (Exception "Analytics Data client not initialized")
  | Some _ =>
      Return
        (<["propertyId" := VStr property_id]>
        (<["dateRange" := VDict date_range]>
        (<["dimensions" := VList (VStr <$> dimensions)]>
        (<["metrics" := VList (VStr <$> metrics)]>
        (<["rows" := VList []]> ∅)))))
  end.

End Analytics.

Arguments AnalyticsManager : clear implicits.

(** ** The HTTP facade ([main.py]) *)

Module Main.

(** What a route gives back: the body of a 200 response, an
    [HTTPException] raised by the code, or the 422 with which the framework
    refuses a request that lacks a required header. *)
Inductive http_result (A : Type) : Type :=
| Respond (body : A)
| HTTPException (status_code : Z) (detail : string)
| RequestValidationError.

Arguments Respond {A} body.
Arguments HTTPException {A} status_code detail.
Arguments RequestValidationError {A}.

Definition status_code {A : Type} (r : http_result A) : Z :=
  match r with
  | Respond _ => 200
  | HTTPException code _ => code
  | RequestValidationError => 422
  end.

(** [verify_subscription_key] *)
Definition verify_subscription_key (ocp_apim_subscription_key : string)
    : http_result string :=
  if negb (Str.truthy ocp_apim_subscription_key)
  then HTTPException 401 "Missing subscription key"
  else Respond ocp_apim_subscription_key.

(** [Depends(verify_subscription_key)] with its required header: the
    framework refuses a request without the header, calls the dependency
    otherwise, and calls the handler only when the dependency returns. *)
Definition depends_key {A : Type} (header : option string)
    (handler : string → http_result A) : http_result A :=
  match header with
  | None => RequestValidationError
  | Some h =>
      match verify_subscription_key h with
      | Respond key => handler key
      | HTTPException code detail => HTTPException code detail
      | RequestValidationError => RequestValidationError
      end
  end.

(** [models.config.APIEnableRequest] *)
Record APIEnableRequest : Type := {
  productCode : string;
  services : list string;
  config : dict
}.

Section Handlers.

Context {C : Type} `{!ContainerProxy C}.

(** [str(e)] for the exceptions of the manager and of the container. *)
Variable str : exn → string.

(** [enable_google_apis], the handler of POST /apis/enable. *)
Definition enable_google_apis (service_mgr : ServiceManager C)
    (request : APIEnableRequest) (key : string) (now : string)
    : http_result dict * ServiceManager C :=
  match
    enable_apis service_mgr (productCode request) (services request)
      (config request) now
  with
  | (inr result, service_mgr) =>
      (Respond (<["success" := VBool true]> (<["data" := VDict result]> ∅)),
       service_mgr)
  | (inl e, service_mgr) => (HTTPException 500 (str e), service_mgr)
  end.

(** [get_api_status], the handler of GET /apis/status/{product_code}. *)
Definition get_api_status (service_mgr : ServiceManager C)
    (product_code : string) (key : string) : http_result dict :=
  match get_status service_mgr product_code with
  | inr status =>
      Respond (<["success" := VBool true]> (<["data" := VDict status]> ∅))
  | inl e => HTTPException 500 (str e)
  end.

(** The route POST /apis/enable: dependency, then handler. *)
Definition post_apis_enable (service_mgr : ServiceManager C)
    (header : option string) (request : APIEnableRequest) (now : string)
    : http_result dict * ServiceManager C :=
  match header with
  | None => (RequestValidationError, service_mgr)
  | Some h =>
      match verify_subscription_key h with
      | Respond key => enable_google_apis service_mgr request key now
      | HTTPException code detail => (HTTPException code detail, service_mgr)
      | RequestValidationError => (RequestValidationError, service_mgr)
      end
  end.

(** The route GET /apis/status/{product_code}. *)
Definition get_apis_status (service_mgr : ServiceManager C)
    (header : option string) (product_code : string) : http_result dict :=
  depends_key header (get_api_status service_mgr product_code).

(** [run_analytics_report], the handler of GET /analytics/reports. *)
Definition run_analytics_report {AdminClient DataClient : Type}
    (analytics_mgr : AnalyticsManager AdminClient DataClient)
    (property_id start_date end_date : string)
    (dimensions metrics : option string) (key : string) : http_result dict :=
  let dim_list :=
    match dimensions with
    | Some s => if Str.truthy s then Str.split "," s else []
    | None => []
    end in
  let metric_list :=
    match metrics with
    | Some s => if Str.truthy s then Str.split "," s else ["activeUsers"]
    | None => ["activeUsers"]
    end in
  match
    run_report analytics_mgr property_id dim_list metric_list
      (<["startDate" := VStr start_date]> (<["endDate" := VStr end_date]> ∅))
  with
  | inr report =>
      Respond (<["success" := VBool true]> (<["data" := VDict report]> ∅))
  | inl e => HTTPException 500 (str e)
  end.

(** The route GET /analytics/reports: dependency, then handler. *)
Definition get_analytics_reports {AdminClient DataClient : Type}
    (analytics_mgr : AnalyticsManager AdminClient DataClient)
    (header : option string) (property_id start_date end_date : string)
    (dimensions metrics : option string) : http_result dict :=
  depends_key header
    (run_analytics_report analytics_mgr property_id start_date end_date
       dimensions metrics).

End Handlers.

End Main.

(** A rendering of exceptions used to instantiate [str] in examples.  It is
    [str(e)] for [Exception(msg)] and for [KeyError(key)]; the texts of the
    other exceptions are chosen by the interpreter and by the container
    library, and what stands here for them is a placeholder that no
    statement relies on. *)
Definition exn_text (e : exn) : string :=
  match e with
  | Exception msg => msg
  | KeyError key => "'" +:+ key +:+ "'"
  | AttributeError msg => msg
  | TypeError msg => msg
  | CosmosResourceNotFoundError => "NotFound"
  | CosmosHttpResponseError _ => "CosmosHttpResponseError"
  end.

(** * Properties *)

(** ** Strings and keys *)




(** ** The document built by [enable_apis] *)

Ltac unfold_document :=
  unfold enable_document;
  repeat match goal with
  | |- context [Py.str_in ?n ?l] => destruct (Py.str_in n l) eqn:?
  end.

Lemma enable_document_id pc services config now :
  enable_document pc services config now !! "id" = Some (VStr (config_id pc)).
Proof. unfold_document; by simplify_map_eq. Qed.

Lemma enable_document_productCode pc services config now :
  enable_document pc services config now !! "productCode" = Some (VStr pc).
Proof. unfold_document; by simplify_map_eq. Qed.

Lemma enable_document_productName pc services config now :
  enable_document pc services config now !! "productName"
  = Some (Py.dict_get config "productName" (VStr pc)).
Proof. unfold_document; by simplify_map_eq. Qed.

Lemma enable_document_apis pc services config now :
  enable_document pc services config now !! "apis"
  = Some (VDict {["enabled" := VList (VStr <$> services)]}).
Proof. unfold_document; by simplify_map_eq. Qed.

Lemma enable_document_updatedAt pc services config now :
  enable_document pc services config now !! "updatedAt" = Some (VStr now).
Proof. unfold_document; by simplify_map_eq. Qed.

Lemma known_services_cases (s : string) :
  s ∈ known_services →
  s = "analytics" ∨ s = "tags" ∨ s = "adsense" ∨ s = "ads".
Proof. unfold known_services. rewrite !elem_of_cons, elem_of_nil. tauto. Qed.

(** A service of the vocabulary has a settings sub-object exactly when it is
    listed in [services]; the sub-object comes from [config]. *)
Lemma enable_document_service pc services config now s :
  s ∈ known_services →
  enable_document pc services config now !! s
  = if Py.str_in s services
    then Some (Py.dict_get config s (VDict ∅)) else None.
Proof.
  intros [-> | [-> | [-> | ->]]]%known_services_cases;
    unfold_document; by simplify_map_eq.
Qed.

(** Only the time stamp tells two documents built from the same arguments
    apart. *)
Lemma enable_document_now pc services config t1 t2 :
  <["updatedAt" := VStr t2]> (enable_document pc services config t1)
  = enable_document pc services config t2.
Proof.
  apply map_eq; intros k.
  unfold_document;
    repeat (rewrite lookup_insert; case_decide; simplify_eq; try done).
Qed.

(** ** The operations over the in-memory container *)

(** The container accepts every document [enable_apis] builds, so the call
    returns and files the document under the product's key. *)
Lemma enable_apis_mem c pc services config now :
  enable_apis (manager_of c) pc services config now
  = (Return
       (<["success" := VBool true]>
       (<["productCode" := VStr pc]>
       (<["enabledServices" := VList (VStr <$> services)]>
       (<["configId" := VStr (config_id pc)]> ∅)))),
     manager_of
       {| Mem.items :=
            <[(pc, config_id pc) := enable_document pc services config now]>
              (Mem.items c) |}).
Proof.
  unfold enable_apis, manager_of; simpl. unfold Mem.upsert.
  by rewrite enable_document_id, enable_document_productCode.
Qed.

Lemma stored_insert c pc d :
  stored
    (manager_of {| Mem.items := <[(pc, config_id pc) := d]> (Mem.items c) |})
    pc
  = Some d.
Proof. unfold stored; simpl. apply lookup_insert_eq. Qed.

Lemma enabled_of_enable_document pc services config now :
  enabled_of (enable_document pc services config now)
  = Some (VList (VStr <$> services)).
Proof. unfold enabled_of. by rewrite enable_document_apis. Qed.

(** When the read raises, [disable_apis] raises the same exception and the
    container is not written. *)
Lemma disable_apis_read_raises {C : Type} `{!ContainerProxy C}
    (c : C) pc services now e :
  read_item c (config_id pc) pc = Raise e →
  disable_apis {| container := Some c |} pc services now
  = (Raise e, {| container := Some c |}).
Proof.
  intros Hread. unfold disable_apis; simpl. fold (config_id pc).
  by rewrite Hread.
Qed.

Lemma mem_read_absent c pc :
  Mem.items c !! (pc, config_id pc) = None →
  read_item c (config_id pc) pc = Raise CosmosResourceNotFoundError.
Proof. intros Hnone. simpl. unfold Mem.read. by rewrite Hnone. Qed.

(** Filtering the stored names is filtering strings. *)
Lemma filter_in_strs (services names : list string) :
  filter (λ s, negb (Py.in_strs s services)) (VStr <$> names)
  = VStr <$> filter (λ s, s ∉ services) names.
Proof.
  induction names as [|x names IH]; [done|].
  rewrite fmap_cons, !filter_cons, IH. simpl.
  case_bool_decide; simpl; repeat case_decide; naive_solver.
Qed.

(** What [disable_apis] computes between the read and the write, for a
    document whose [apis.enabled] is a list. *)
Lemma disable_update_list d services now apis l :
  d !! "apis" = Some (VDict apis) →
  apis !! "enabled" = Some (VList l) →
  disable_update d services now
  = Return
      (filter (λ s, negb (Py.in_strs s services)) l,
       <["updatedAt" := VStr now]>
         (<["apis" :=
              VDict (<["enabled" :=
                 VList (filter (λ s, negb (Py.in_strs s services)) l)]> apis)]>
            d)).
Proof.
  intros Hapis Hen.
  unfold disable_update, Py.dict_get, Py.getitem. rewrite Hapis. simpl.
  unfold Py.dict_get. by rewrite Hen.
Qed.

Lemma enabled_of_inv d v :
  enabled_of d = Some v →
  ∃ apis, d !! "apis" = Some (VDict apis) ∧ apis !! "enabled" = Some v.
Proof.
  unfold enabled_of. destruct (d !! "apis") as [[]|]; try done. eauto.
Qed.

(** [disable_apis] on a well-formed document of the in-memory container. *)
Lemma disable_apis_mem c pc services now d apis names :
  Mem.items c !! (pc, config_id pc) = Some d →
  wf_doc pc (config_id pc) d →
  d !! "apis" = Some (VDict apis) →
  apis !! "enabled" = Some (VList (VStr <$> names)) →
  let remaining := VList (VStr <$> filter (λ s, s ∉ services) names) in
  disable_apis (manager_of c) pc services now
  = (Return
       (<["success" := VBool true]>
       (<["productCode" := VStr pc]>
       (<["disabledServices" := VList (VStr <$> services)]>
       (<["remainingServices" := remaining]> ∅)))),
     manager_of
       {| Mem.items :=
            <[(pc, config_id pc) :=
                <["updatedAt" := VStr now]>
                  (<["apis" := VDict (<["enabled" := remaining]> apis)]> d)]>
              (Mem.items c) |}).
Proof.
  intros Hd (Hid & Hpc & _) Hapis Hen remaining.
  unfold disable_apis, manager_of; simpl. unfold Mem.read.
  fold (config_id pc). rewrite Hd. simpl.
  rewrite (disable_update_list _ _ _ _ _ Hapis Hen), filter_in_strs.
  simpl. unfold Mem.upsert.
  rewrite !lookup_insert_ne, Hid, Hpc by done. done.
Qed.

(** ** Well-formed containers *)

Lemma wf_store_empty : wf_store Mem.empty.
Proof. intros pk i d. simpl. by rewrite lookup_empty. Qed.

Lemma wf_doc_enable_document pc services config now :
  wf_doc pc (config_id pc) (enable_document pc services config now).
Proof.
  split; [apply enable_document_id|].
  split; [apply enable_document_productCode|].
  exists services. apply enabled_of_enable_document.
Qed.

Lemma wf_doc_disabled pk i d apis names now :
  wf_doc pk i d →
  wf_doc pk i
    (<["updatedAt" := VStr now]>
       (<["apis" := VDict (<["enabled" := VList (VStr <$> names)]> apis)]> d)).
Proof.
  intros (Hid & Hpc & _). unfold wf_doc, enabled_of.
  rewrite !lookup_insert_ne, lookup_insert_eq by done.
  split; [done|]. split; [done|]. exists names. apply lookup_insert_eq.
Qed.

Lemma wf_store_insert c pk i d :
  wf_store c → wf_doc pk i d →
  wf_store {| Mem.items := <[(pk, i) := d]> (Mem.items c) |}.
Proof.
  intros Hwf Hd pk' i' d'. simpl. rewrite lookup_insert.
  case_decide; simplify_eq; [by intros [= <-] | apply Hwf].
Qed.

Lemma wf_store_enable c c' pc services config now r :
  wf_store c →
  enable_apis (manager_of c) pc services config now
    = (Return r, manager_of c') →
  wf_store c'.
Proof.
  intros Hwf. rewrite enable_apis_mem. intros [= _ <-].
  apply wf_store_insert; [done | apply wf_doc_enable_document].
Qed.

Lemma wf_store_disable c c' pc services now r :
  wf_store c →
  disable_apis (manager_of c) pc services now = (Return r, manager_of c') →
  wf_store c'.
Proof.
  intros Hwf.
  destruct (Mem.items c !! (pc, config_id pc)) as [d|] eqn:Hd.
  - pose proof (Hwf _ _ _ Hd) as Hwd.
    destruct Hwd as (Hid & Hpc & names & (apis & Hapis & Hen)%enabled_of_inv).
    assert (wf_doc pc (config_id pc) d) as Hwd
      by (repeat split; [done..|]; exists names; unfold enabled_of;
          by rewrite Hapis).
    rewrite (disable_apis_mem _ _ _ _ _ _ _ Hd Hwd Hapis Hen).
    intros [= _ <-]. apply wf_store_insert; [done|].
    by apply wf_doc_disabled.
  - unfold manager_of.
    by rewrite (disable_apis_read_raises _ _ _ _ _ (mem_read_absent _ _ Hd)).
Qed.

(** Every container the manager can produce is well formed. *)
Lemma reachable_wf_store c : reachable c → wf_store c.
Proof.
  induction 1 as [|c c' pc services config now r _ IH Hcall
                  |c c' pc services now r _ IH Hcall].
  - apply wf_store_empty.
  - by eapply wf_store_enable.
  - by eapply wf_store_disable.
Qed.

(** ** Status queries *)

(** Reading the [enabled] field of a settings sub-object that is a dict, or
    is absent. *)
Lemma get_enabled_field (d : dict) (k : string) (dflt : value) :
  (∀ v, d !! k = Some v → ∃ m, v = VDict m) →
  Py.get (Py.dict_get d k (VDict ∅)) "enabled" dflt
  = Return
      match d !! k with
      | Some (VDict m) => default dflt (m !! "enabled")
      | _ => dflt
      end.
Proof.
  intros Hk. unfold Py.dict_get.
  destruct (d !! k) as [v|]; [|done].
  by destruct (Hk v eq_refl) as [m ->].
Qed.

(** C1, as the code has it: for a stored document whose [apis] entry and
    settings sub-objects (where present) are dicts, [get_status] returns the
    stored list of enabled services and, for each service of the vocabulary,
    the [enabled] field of that service's settings sub-object, [False] when
    the sub-object or the field is absent.  Membership in the list of
    enabled services plays no part. *)
Theorem get_status_reports_settings_flag
    {C : Type} `{!ContainerProxy C} (c : C) (pc : string) (d : dict) :
  read_item c (config_id pc) pc = Return d →
  (∀ k v, k ∈ "apis" :: known_services → d !! k = Some v → ∃ m, v = VDict m) →
  ∃ st,
    get_status {| container := Some c |} pc = Return st ∧
    st !! "enabledServices" = Some (default (VList []) (enabled_of d)) ∧
    ∀ s, s ∈ known_services →
      st !! s
      = Some match d !! s with
             | Some (VDict m) => default (VBool false) (m !! "enabled")
             | _ => VBool false
             end.
Proof.
  intros Hread Hdict.
  assert (∀ k, k ∈ "apis" :: known_services →
               ∀ v, d !! k = Some v → ∃ m, v = VDict m) as Hk by eauto.
  unfold get_status; simpl. fold (config_id pc). rewrite Hread. simpl.
  unfold status_found.
  rewrite (get_enabled_field d "apis"), (get_enabled_field d "analytics"),
    (get_enabled_field d "tags"), (get_enabled_field d "adsense"),
    (get_enabled_field d "ads")
    by (apply Hk; unfold known_services; rewrite !elem_of_cons; tauto).
  simpl. eexists. split; [reflexivity|]. split.
  - rewrite !lookup_insert_ne, lookup_insert_eq by done.
    unfold enabled_of. by destruct (d !! "apis") as [[]|].
  - intros s [-> | [-> | [-> | ->]]]%known_services_cases;
      by rewrite !lookup_insert_ne, lookup_insert_eq by done.
Qed.

Lemma get_status_reports_settings_flag_witness :
  ∃ st,
    get_status (manager_of
      {| Mem.items :=
           {[ ("TEST", "test-google-config")
              := enable_document "TEST" ["analytics"] test_config "t0" ]} |})
      "TEST" = Return st ∧
    st !! "enabledServices" = Some (VList [VStr "analytics"]) ∧
    st !! "analytics" = Some (VBool true) ∧
    st !! "ads" = Some (VBool false).
Proof.
  destruct (get_status_reports_settings_flag
    {| Mem.items :=
         {[ ("TEST", "test-google-config")
            := enable_document "TEST" ["analytics"] test_config "t0" ]} |}
    "TEST" (enable_document "TEST" ["analytics"] test_config "t0"))
    as (st & Hst & Hen & Hflag).
  - reflexivity.
  - intros k v. unfold known_services.
    rewrite !elem_of_cons, elem_of_nil.
    intros [-> | [-> | [-> | [-> | [-> | []]]]]]; vm_compute;
      intros [= <-]; eauto.
  - exists st. split; [exact Hst|]. split; [exact Hen|]. split.
    + apply (Hflag "analytics"). unfold known_services.
      rewrite !elem_of_cons. tauto.
    + apply (Hflag "ads"). unfold known_services.
      rewrite !elem_of_cons. tauto.
Defined.

(** C1 fails as stated: after the enable call of the end-to-end scenario the
    list of enabled services holds analytics and ads, yet all four flags of
    the status are [False]. *)
Lemma get_status_grid_flags_false :
  let m0 := manager_of Mem.empty in
  let m1 :=
    (enable_apis m0 "GRID" ["analytics"; "ads"] grid_config
       "2026-01-01T00:00:00").2 in
  get_status m1 "GRID" = Return grid_status ∧
  grid_status !! "enabledServices"
    = Some (VList [VStr "analytics"; VStr "ads"]) ∧
  grid_status !! "analytics" = Some (VBool false) ∧
  grid_status !! "ads" = Some (VBool false) ∧
  grid_status !! "tags" = Some (VBool false) ∧
  grid_status !! "adsense" = Some (VBool false) ∧
  ¬ (grid_status !! "analytics" = Some (VBool true) ∧
     grid_status !! "ads" = Some (VBool true)).
Proof.
  do 6 (split; [vm_compute; reflexivity|]).
  intros [H _]. vm_compute in H. discriminate.
Qed.

(** C5: when the read of the product's document raises, whatever the
    exception, [get_status] returns the default status: no enabled service,
    the four flags [False], neither [productName] nor [updatedAt]. *)
Theorem get_status_default_on_read_failure
    {C : Type} `{!ContainerProxy C} (c : C) (pc : string) (e : exn) :
  read_item c (config_id pc) pc = Raise e →
  get_status {| container := Some c |} pc = Return (status_default pc) ∧
  status_default pc !! "enabledServices" = Some (VList []) ∧
  (∀ s, s ∈ known_services → status_default pc !! s = Some (VBool false)) ∧
  status_default pc !! "productName" = None ∧
  status_default pc !! "updatedAt" = None.
Proof.
  intros Hread. split.
  - unfold get_status; simpl. fold (config_id pc). by rewrite Hread.
  - split; [done|]. split; [|done].
    by intros s [-> | [-> | [-> | ->]]]%known_services_cases.
Qed.

Lemma get_status_default_on_read_failure_witness :
  get_status (manager_of Mem.empty) "NEWPRODUCT"
  = Return (status_default "NEWPRODUCT").
Proof.
  apply (get_status_default_on_read_failure Mem.empty "NEWPRODUCT"
           CosmosResourceNotFoundError).
  reflexivity.
Defined.

(** ** Failure paths *)

(** C6: [disable_apis] for a product without a stored document raises the
    not-found condition of the read and leaves the container as it was: no
    document is created. *)
Theorem disable_apis_unconfigured_fails
    (c : Mem.t) (pc : string) (services : list string) (now : string) :
  Mem.items c !! (pc, config_id pc) = None →
  disable_apis (manager_of c) pc services now
  = (Raise CosmosResourceNotFoundError, manager_of c).
Proof.
  intros Hnone. unfold manager_of.
  apply disable_apis_read_raises. simpl. unfold Mem.read.
  by rewrite Hnone.
Qed.

Lemma disable_apis_unconfigured_fails_witness :
  disable_apis (manager_of Mem.empty) "NEWPRODUCT" ["analytics"] "t0"
  = (Raise CosmosResourceNotFoundError, manager_of Mem.empty).
Proof.
  apply (disable_apis_unconfigured_fails Mem.empty "NEWPRODUCT").
  reflexivity.
Defined.

(** C7: without a container, each of the three operations raises the fixed
    "not initialized" exception; [get_status] raises too and does not fall
    back to the default status. *)
Theorem uninitialized_operations_fail
    {C : Type} `{!ContainerProxy C}
    (pc : string) (services : list string) (config : dict) (now : string) :
  enable_apis (uninitialized (C := C)) pc services config now
    = (Raise (Exception "Cosmos DB not initialized"), uninitialized) ∧
  disable_apis (uninitialized (C := C)) pc services now
    = (Raise (Exception "Cosmos DB not initialized"), uninitialized) ∧
  get_status (uninitialized (C := C)) pc
    = Raise (Exception "Cosmos DB not initialized") ∧
  get_status (uninitialized (C := C)) pc ≠ Return (status_default pc).
Proof. done. Qed.

(** ** Writes of [enable_apis] *)

Lemma str_in_true (s : string) (services : list string) :
  Py.str_in s services = true ↔ s ∈ services.
Proof. unfold Py.str_in. by rewrite bool_decide_eq_true. Qed.

Lemma enable_document_service_is_Some pc services config now s :
  s ∈ known_services →
  is_Some (enable_document pc services config now !! s) ↔ s ∈ services.
Proof.
  intros Hs. rewrite (enable_document_service _ _ _ _ _ Hs), <-str_in_true.
  destruct (Py.str_in s services); rewrite is_Some_alt; naive_solver.
Qed.

Lemma filter_iff_elem {A : Type} (P Q : A → Prop)
    `{!∀ x, Decision (P x)} `{!∀ x, Decision (Q x)} (l : list A) :
  (∀ x, x ∈ l → P x ↔ Q x) → filter P l = filter Q l.
Proof.
  induction l as [|x l IH]; intros HPQ; [done|].
  rewrite !filter_cons, IH by (intros y Hy; apply HPQ; by right).
  pose proof (HPQ x (list_elem_of_here x l)).
  repeat case_decide; first [done | tauto].
Qed.

Lemma settings_keys_enable_document pc services config now :
  settings_keys (enable_document pc services config now)
  = filter (λ s, s ∈ services) known_services.
Proof.
  apply filter_iff_elem. intros s Hs.
  by apply enable_document_service_is_Some.
Qed.

Lemma settings_within_enabled_enable_document pc services config now :
  settings_within_enabled (enable_document pc services config now).
Proof.
  exists (VStr <$> services).
  split; [apply enabled_of_enable_document|].
  intros s. rewrite settings_keys_enable_document, list_elem_of_filter.
  intros [Hs _]. by apply list_elem_of_fmap_2.
Qed.

(** C2: whatever the container held, [enable_apis] leaves under the
    product's key the document built from its arguments alone: its enabled
    services are the ones passed, and the only settings it carries are those
    of the services passed.  A later call for the same product replaces that
    document as a whole (analytics, then tags, leaves tags only, without the
    analytics settings), and a second call with the same arguments yields the
    same document up to [updatedAt]. *)
Theorem enable_apis_full_replace
    (c : Mem.t) (pc : string) (services : list string) (config : dict)
    (now : string) :
  let m1 := (enable_apis (manager_of c) pc services config now).2 in
  stored m1 pc = Some (enable_document pc services config now) ∧
  enabled_of (enable_document pc services config now)
    = Some (VList (VStr <$> services)) ∧
  settings_keys (enable_document pc services config now)
    = filter (λ s, s ∈ services) known_services ∧
  (∀ services2 config2 now2,
     stored (enable_apis m1 pc services2 config2 now2).2 pc
     = Some (enable_document pc services2 config2 now2)) ∧
  (∀ now2,
     stored (enable_apis m1 pc services config now2).2 pc
     = Some (<["updatedAt" := VStr now2]>
               (enable_document pc services config now))) ∧
  (∀ cfgA cfgB t1 t2,
     let mA := (enable_apis (manager_of c) pc ["analytics"] cfgA t1).2 in
     let mB := (enable_apis mA pc ["tags"] cfgB t2).2 in
     ∃ d, stored mB pc = Some d ∧
          enabled_of d = Some (VList [VStr "tags"]) ∧
          settings_keys d = ["tags"] ∧
          d !! "analytics" = None).
Proof.
  simpl. rewrite !enable_apis_mem. simpl.
  split; [apply stored_insert|].
  split; [apply enabled_of_enable_document|].
  split; [apply settings_keys_enable_document|].
  split; [intros; rewrite enable_apis_mem; apply stored_insert|].
  split.
  { intros. rewrite enable_apis_mem, enable_document_now.
    apply stored_insert. }
  intros cfgA cfgB t1 t2. rewrite !enable_apis_mem. simpl.
  eexists. split; [apply stored_insert|].
  split; [apply enabled_of_enable_document|].
  split; [by rewrite settings_keys_enable_document|].
  by rewrite (enable_document_service _ _ _ _ "analytics")
    by (unfold known_services; rewrite !elem_of_cons; tauto).
Qed.

(** C3 fails as stated: after enabling analytics and tags and then disabling
    analytics, the document written by [disable_apis] lists tags only and
    still carries the analytics settings. *)
Lemma disable_apis_keeps_stale_settings :
  let m0 := manager_of Mem.empty in
  let m1 :=
    (enable_apis m0 "TERP" ["analytics"; "tags"] terp_config
       "2026-01-01T00:00:00").2 in
  let m2 := (disable_apis m1 "TERP" ["analytics"] "2026-01-02T00:00:00").2 in
  stored m2 "TERP" = Some terp_after_disable ∧
  enabled_of terp_after_disable = Some (VList [VStr "tags"]) ∧
  settings_keys terp_after_disable = ["analytics"; "tags"] ∧
  ¬ settings_within_enabled terp_after_disable.
Proof.
  assert (enabled_of terp_after_disable = Some (VList [VStr "tags"])) as Hen
    by (vm_compute; reflexivity).
  assert (settings_keys terp_after_disable = ["analytics"; "tags"]) as Hkeys
    by (vm_compute; reflexivity).
  split; [vm_compute; reflexivity|].
  split; [exact Hen|]. split; [exact Hkeys|].
  intros (l & Hl & Hsub). rewrite Hen in Hl. injection Hl as <-.
  specialize (Hsub "analytics"). rewrite Hkeys in Hsub.
  specialize (Hsub (list_elem_of_here _ _)).
  apply list_elem_of_singleton in Hsub. discriminate.
Qed.

(** C4 fails as stated: a service outside the vocabulary is accepted, the
    call returns and the name is stored as an enabled service. *)
Lemma enable_apis_accepts_unknown_service :
  let r := enable_apis (manager_of Mem.empty) "TERP" ["bogus"] ∅ "t0" in
  ("bogus" ∉ known_services) ∧
  (∃ res, r.1 = Return res ∧ res !! "success" = Some (VBool true)) ∧
  ∃ d, stored r.2 "TERP" = Some d ∧
       enabled_of d = Some (VList [VStr "bogus"]).
Proof.
  simpl. rewrite enable_apis_mem. simpl. split.
  - unfold known_services. rewrite !elem_of_cons, elem_of_nil.
    intros [|[|[|[|[]]]]]; discriminate.
  - split; [eexists; split; [reflexivity | apply lookup_insert_eq]|].
    eexists. split; [apply (stored_insert Mem.empty)|].
    apply enabled_of_enable_document.
Qed.

(** C4, as the code has it: [enable_apis] checks no name against the
    vocabulary.  For every list of services the call returns, reports the
    list as passed, and stores it unchanged as the enabled services of the
    product's document. *)
Theorem enable_apis_stores_services_unchecked
    (c : Mem.t) (pc : string) (services : list string) (config : dict)
    (now : string) :
  let r := enable_apis (manager_of c) pc services config now in
  (∃ res, r.1 = Return res ∧
          res !! "success" = Some (VBool true) ∧
          res !! "enabledServices" = Some (VList (VStr <$> services))) ∧
  ∃ d, stored r.2 pc = Some d ∧
       enabled_of d = Some (VList (VStr <$> services)).
Proof.
  simpl. rewrite enable_apis_mem. simpl. split.
  - eexists. split; [reflexivity|]. split; [apply lookup_insert_eq|].
    by rewrite !lookup_insert_ne, lookup_insert_eq by done.
  - eexists. split; [apply stored_insert|].
    apply enabled_of_enable_document.
Qed.

(** ** Writes of [disable_apis] *)

(** On a well-formed container that holds a document for the product,
    [disable_apis] returns; the lemma names the parts of the document and
    gives the outcome. *)
Lemma disable_apis_wf c pc services now d :
  wf_store c →
  Mem.items c !! (pc, config_id pc) = Some d →
  ∃ apis names,
    d !! "apis" = Some (VDict apis) ∧
    apis !! "enabled" = Some (VList (VStr <$> names)) ∧
    let remaining := VList (VStr <$> filter (λ s, s ∉ services) names) in
    disable_apis (manager_of c) pc services now
    = (Return
         (<["success" := VBool true]>
         (<["productCode" := VStr pc]>
         (<["disabledServices" := VList (VStr <$> services)]>
         (<["remainingServices" := remaining]> ∅)))),
       manager_of
         {| Mem.items :=
              <[(pc, config_id pc) :=
                  <["updatedAt" := VStr now]>
                    (<["apis" := VDict (<["enabled" := remaining]> apis)]> d)]>
                (Mem.items c) |}).
Proof.
  intros Hwf Hd. pose proof (Hwf _ _ _ Hd) as Hwd.
  destruct Hwd as (_ & _ & names & (apis & Hapis & Hen)%enabled_of_inv).
  exists apis, names. split; [done|]. split; [done|].
  by apply disable_apis_mem; [| apply (Hwf _ _ _ Hd) | |].
Qed.

Lemma enabled_of_names_inj d names names' :
  enabled_of d = Some (VList (VStr <$> names)) →
  enabled_of d = Some (VList (VStr <$> names')) →
  names = names'.
Proof.
  intros -> [= Heq]. revert names' Heq.
  induction names as [|x names IH]; intros [|y names'] Heq;
    simplify_eq/=; f_equal; auto.
Qed.

Lemma known_services_not_apis s :
  s ∈ known_services → s ≠ "apis" ∧ s ≠ "updatedAt".
Proof. by intros [-> | [-> | [-> | ->]]]%known_services_cases. Qed.

Lemma settings_keys_ext d d' :
  (∀ s, s ∈ known_services → d' !! s = d !! s) →
  settings_keys d' = settings_keys d.
Proof.
  intros Heq. apply filter_iff_elem. intros s Hs. by rewrite (Heq s Hs).
Qed.

Lemma filter_not_in_id (services names : list string) :
  Forall (λ s, s ∉ names) services →
  filter (λ s, s ∉ services) names = names.
Proof.
  rewrite Forall_forall. intros Hall.
  induction names as [|x names IH]; [done|].
  rewrite filter_cons_True.
  - f_equal. apply IH. intros s Hs Hin. apply (Hall s Hs). by right.
  - intros Hx. apply (Hall x Hx). by left.
Qed.

(** C3, as the code has it: every document [enable_apis] writes keeps its
    settings within its enabled services.  [disable_apis] returns and writes
    back, under the same key, the document it read with only [apis.enabled]
    and [updatedAt] changed: every other field is as it was, so the settings
    sub-objects of all four services stay, those of the services it removes
    included, although these are no longer listed as enabled. *)
Theorem settings_within_enabled_on_enable_only
    (c : Mem.t) (pc : string) (services : list string) (config : dict)
    (now : string) :
  (stored (enable_apis (manager_of c) pc services config now).2 pc
     = Some (enable_document pc services config now) ∧
   settings_within_enabled (enable_document pc services config now)) ∧
  (∀ d apis names,
     wf_store c →
     Mem.items c !! (pc, config_id pc) = Some d →
     d !! "apis" = Some (VDict apis) →
     apis !! "enabled" = Some (VList (VStr <$> names)) →
     let remaining := VStr <$> filter (λ s, s ∉ services) names in
     let d' :=
       <["updatedAt" := VStr now]>
         (<["apis" := VDict (<["enabled" := VList remaining]> apis)]> d) in
     (∃ r, (disable_apis (manager_of c) pc services now).1 = Return r) ∧
     (disable_apis (manager_of c) pc services now).2
       = manager_of
           {| Mem.items := <[(pc, config_id pc) := d']> (Mem.items c) |} ∧
     (∀ k, k ≠ "apis" → k ≠ "updatedAt" → d' !! k = d !! k) ∧
     (∀ s, s ∈ known_services → d' !! s = d !! s) ∧
     settings_keys d' = settings_keys d ∧
     (∀ s v, s ∈ known_services → s ∈ services → d !! s = Some v →
             d' !! s = Some v ∧ VStr s ∉ remaining)).
Proof.
  split.
  - rewrite enable_apis_mem. simpl.
    split; [apply stored_insert|].
    apply settings_within_enabled_enable_document.
  - intros d apis names Hwf Hd Hapis Hen remaining d'.
    rewrite (disable_apis_mem c pc services now d apis names Hd
               (Hwf _ _ _ Hd) Hapis Hen).
    simpl. split; [by eexists|]. split; [done|].
    assert (∀ k, k ≠ "apis" → k ≠ "updatedAt" → d' !! k = d !! k) as Hframe.
    { intros k Hk1 Hk2. unfold d'. by rewrite !lookup_insert_ne. }
    assert (∀ s, s ∈ known_services → d' !! s = d !! s) as Hsame.
    { intros s [Hk1 Hk2]%known_services_not_apis. by apply Hframe. }
    split; [done|]. split; [done|].
    split; [by apply settings_keys_ext|].
    intros s v Hk Hs Hv. split; [by rewrite Hsame|].
    unfold remaining. intros (s' & [= <-] & Hin)%list_elem_of_fmap_1.
    by apply list_elem_of_filter in Hin as [Hnot _].
Qed.

Lemma wf_store_terp : wf_store terp_store.
Proof.
  apply (wf_store_insert Mem.empty); [apply wf_store_empty|].
  apply wf_doc_enable_document.
Defined.

Lemma settings_within_enabled_on_enable_only_witness :
  let d :=
    enable_document "TERP" ["analytics"; "tags"] terp_config
      "2026-01-01T00:00:00" in
  let d' :=
    <["updatedAt" := VStr "2026-01-02T00:00:00"]>
      (<["apis" := VDict (<["enabled" := VList [VStr "tags"]]>
                            {["enabled" :=
                                VList [VStr "analytics"; VStr "tags"]]})]> d)
  in
  (disable_apis (manager_of terp_store) "TERP" ["analytics"]
     "2026-01-02T00:00:00").2
  = manager_of
      {| Mem.items :=
           <[("TERP", config_id "TERP") := d']> (Mem.items terp_store) |} ∧
  d' !! "analytics" = Some (VDict {[ "propertyId" := VStr "G-1" ]}).
Proof.
  intros d d'.
  destruct (settings_within_enabled_on_enable_only terp_store "TERP"
              ["analytics"] ∅ "2026-01-02T00:00:00") as [_ Hdis].
  destruct (Hdis d {["enabled" := VList [VStr "analytics"; VStr "tags"]]}
              ["analytics"; "tags"])
    as (_ & Hwrite & _ & _ & _ & Hstale).
  - exact wf_store_terp.
  - apply lookup_insert_eq.
  - apply enable_document_apis.
  - apply lookup_singleton_eq.
  - split; [exact Hwrite|].
    apply (Hstale "analytics" (VDict {[ "propertyId" := VStr "G-1" ]})).
    + unfold known_services. rewrite elem_of_cons. by left.
    + rewrite elem_of_cons. by left.
    + vm_compute. reflexivity.
Defined.

(** C9: on a stored document, [disable_apis] writes one document, under the
    same key: its enabled services are the former ones without the names in
    [services], in their former order; [updatedAt] is the time of the call;
    every other top-level field (id, productCode, productName, the settings
    sub-objects) and every other entry of [apis] is as it was. *)
Theorem disable_apis_frame
    (c : Mem.t) (pc : string) (services : list string) (now : string)
    (d : dict) (names : list string) :
  wf_store c →
  Mem.items c !! (pc, config_id pc) = Some d →
  enabled_of d = Some (VList (VStr <$> names)) →
  ∃ c' d',
    (disable_apis (manager_of c) pc services now).2 = manager_of c' ∧
    Mem.items c' = <[(pc, config_id pc) := d']> (Mem.items c) ∧
    enabled_of d'
      = Some (VList (VStr <$> filter (λ s, s ∉ services) names)) ∧
    (∀ s, s ∈ filter (λ s, s ∉ services) names ↔ s ∈ names ∧ s ∉ services) ∧
    d' !! "updatedAt" = Some (VStr now) ∧
    (∀ k, k ≠ "apis" → k ≠ "updatedAt" → d' !! k = d !! k) ∧
    (∀ apis k, d !! "apis" = Some (VDict apis) → k ≠ "enabled" →
       ∃ apis', d' !! "apis" = Some (VDict apis') ∧ apis' !! k = apis !! k).
Proof.
  intros Hwf Hd Hnames.
  destruct (disable_apis_wf c pc services now d Hwf Hd)
    as (apis & names' & Hapis & Hen & ->).
  assert (names' = names) as ->.
  { apply (enabled_of_names_inj d); [|done].
    unfold enabled_of. by rewrite Hapis. }
  simpl. eexists _, _. split; [reflexivity|]. simpl.
  split; [reflexivity|].
  split.
  { unfold enabled_of.
    rewrite lookup_insert_ne, lookup_insert_eq by done.
    apply lookup_insert_eq. }
  split.
  { intros s. rewrite list_elem_of_filter. tauto. }
  split; [apply lookup_insert_eq|].
  split.
  { intros k Hk1 Hk2. by rewrite !lookup_insert_ne. }
  intros apis0 k Hapis0 Hk. rewrite Hapis in Hapis0. injection Hapis0 as <-.
  eexists. split.
  { rewrite lookup_insert_ne by done. apply lookup_insert_eq. }
  by rewrite lookup_insert_ne.
Qed.

Lemma disable_apis_frame_witness :
  ∃ c' d',
    (disable_apis (manager_of terp_store) "TERP" ["analytics"]
       "2026-01-02T00:00:00").2 = manager_of c' ∧
    Mem.items c' = <[("TERP", config_id "TERP") := d']> (Mem.items terp_store) ∧
    enabled_of d' = Some (VList [VStr "tags"]) ∧
    d' !! "tags" = Some (VDict {[ "containerId" := VStr "GTM-1" ]}).
Proof.
  destruct (disable_apis_frame terp_store "TERP" ["analytics"]
              "2026-01-02T00:00:00"
              (enable_document "TERP" ["analytics"; "tags"] terp_config
                 "2026-01-01T00:00:00")
              ["analytics"; "tags"])
    as (c' & d' & Hm & Hitems & Hen & _ & _ & Hframe & _).
  - exact wf_store_terp.
  - apply lookup_insert_eq.
  - apply enabled_of_enable_document.
  - exists c', d'. split; [exact Hm|]. split; [exact Hitems|].
    split; [exact Hen|].
    rewrite Hframe by discriminate. vm_compute. reflexivity.
Defined.

(** C10: on a stored document, [disable_apis] returns whatever names are
    passed: names that are not enabled are skipped, and the remaining
    services it reports are the former list, in its order, without the
    members of [services]. *)
Theorem disable_apis_ignores_absent_names
    (c : Mem.t) (pc : string) (services : list string) (now : string)
    (d : dict) (names : list string) :
  wf_store c →
  Mem.items c !! (pc, config_id pc) = Some d →
  enabled_of d = Some (VList (VStr <$> names)) →
  ∃ res,
    (disable_apis (manager_of c) pc services now).1 = Return res ∧
    res !! "remainingServices"
      = Some (VList (VStr <$> filter (λ s, s ∉ services) names)) ∧
    (∀ s, s ∈ filter (λ s, s ∉ services) names ↔ s ∈ names ∧ s ∉ services) ∧
    filter (λ s, s ∉ services) names `sublist_of` names ∧
    (Forall (λ s, s ∉ names) services →
     filter (λ s, s ∉ services) names = names).
Proof.
  intros Hwf Hd Hnames.
  destruct (disable_apis_wf c pc services now d Hwf Hd)
    as (apis & names' & Hapis & Hen & ->).
  assert (names' = names) as ->.
  { apply (enabled_of_names_inj d); [|done].
    unfold enabled_of. by rewrite Hapis. }
  simpl. eexists. split; [reflexivity|].
  split.
  { by rewrite !lookup_insert_ne, lookup_insert_eq by done. }
  split.
  { intros s. rewrite list_elem_of_filter. tauto. }
  split; [apply sublist_filter|].
  apply filter_not_in_id.
Qed.

Lemma disable_apis_ignores_absent_names_witness :
  ∃ res,
    (disable_apis (manager_of terp_store) "TERP" ["ads"; "adsense"]
       "2026-01-02T00:00:00").1 = Return res ∧
    res !! "remainingServices"
      = Some (VList [VStr "analytics"; VStr "tags"]).
Proof.
  destruct (disable_apis_ignores_absent_names terp_store "TERP"
              ["ads"; "adsense"] "2026-01-02T00:00:00"
              (enable_document "TERP" ["analytics"; "tags"] terp_config
                 "2026-01-01T00:00:00")
              ["analytics"; "tags"])
    as (res & Hres & Hrem & _).
  - exact wf_store_terp.
  - apply lookup_insert_eq.
  - apply enabled_of_enable_document.
  - exists res. split; [exact Hres | exact Hrem].
Defined.

(** ** The key of a product's document *)

(** [get_status] consults the container under the product's key only. *)
Lemma get_status_mem c pc :
  get_status (manager_of c) pc
  = match Mem.items c !! (pc, config_id pc) with
    | Some d =>
        match status_found pc d with
        | inr status => Return status
        | inl _ => Return (status_default pc)
        end
    | None => Return (status_default pc)
    end.
Proof.
  unfold get_status, manager_of; simpl. unfold Mem.read.
  fold (config_id pc). by destruct (Mem.items c !! (pc, config_id pc)).
Qed.

(** *** Letter case and the key *)















(** * Further properties of the manager *)

(** ** Status queries on any document *)

Lemma get_not_dict (d : dict) (k : string) (v dflt0 dflt : value) :
  d !! k = Some v → (∀ m, v ≠ VDict m) →
  Py.get (Py.dict_get d k dflt0) "enabled" dflt = Raise (AttributeError "get").
Proof.
  intros Hk Hv. unfold Py.dict_get. rewrite Hk. simpl.
  destruct v; try done. by destruct (Hv d0).
Qed.

Lemma status_default_keys pc k :
  k ∈ "enabledServices" :: known_services →
  is_Some (status_default pc !! k).
Proof.
  unfold known_services. rewrite !elem_of_cons, elem_of_nil.
  intros [-> | [-> | [-> | [-> | [-> | []]]]]]; by eexists.
Qed.

Lemma status_found_keys pc d st k :
  status_found pc d = Return st →
  st !! "productCode" = Some (VStr pc) ∧
  (k ∈ "enabledServices" :: known_services → is_Some (st !! k)).
Proof.
  unfold status_found.
  destruct (Py.get (Py.dict_get d "apis" _) _ _); [done|].
  destruct (Py.get (Py.dict_get d "analytics" _) _ _); [done|].
  destruct (Py.get (Py.dict_get d "tags" _) _ _); [done|].
  destruct (Py.get (Py.dict_get d "adsense" _) _ _); [done|].
  destruct (Py.get (Py.dict_get d "ads" _) _ _); [done|].
  simpl. intros [= <-]. split; [apply lookup_insert_eq|].
  unfold known_services. rewrite !elem_of_cons, elem_of_nil.
  intros [-> | [-> | [-> | [-> | [-> | []]]]]];
    rewrite !lookup_insert_ne, lookup_insert_eq by done; by eexists.
Qed.

(** X1: with a container, [get_status] never raises, whatever the read does
    and whatever the document holds; the status always names the product
    and has the list of enabled services and the four flags. *)
Theorem get_status_never_raises
    {C : Type} `{!ContainerProxy C} (c : C) (pc : string) :
  ∃ st,
    get_status {| container := Some c |} pc = Return st ∧
    st !! "productCode" = Some (VStr pc) ∧
    ∀ k, k ∈ "enabledServices" :: known_services → is_Some (st !! k).
Proof.
  unfold get_status; simpl.
  destruct (read_item c _ pc) as [e|d]; simpl.
  - eexists. split; [reflexivity|]. split; [done|].
    apply status_default_keys.
  - destruct (status_found pc d) as [e|st] eqn:Hst.
    + eexists. split; [reflexivity|]. split; [done|].
      apply status_default_keys.
    + exists st. split; [done|]. split.
      * by apply (status_found_keys pc d st "").
      * intros k. by apply (status_found_keys pc d st k).
Qed.

(** X2: when the stored document has, under [apis] or under one of the
    four service names, anything but a dict, [get_status] answers with the
    default status: the product looks unconfigured. *)
Theorem get_status_default_on_malformed_document
    {C : Type} `{!ContainerProxy C} (c : C) (pc : string) (d : dict)
    (k : string) (v : value) :
  read_item c (config_id pc) pc = Return d →
  k ∈ "apis" :: known_services →
  d !! k = Some v →
  (∀ m, v ≠ VDict m) →
  get_status {| container := Some c |} pc = Return (status_default pc).
Proof.
  intros Hread Hk Hv Hnd.
  unfold get_status; simpl. fold (config_id pc). rewrite Hread. simpl.
  assert (∃ e, status_found pc d = Raise e) as [e ->]; [|done].
  unfold status_found. revert Hk. unfold known_services.
  rewrite !elem_of_cons, elem_of_nil.
  intros [-> | [-> | [-> | [-> | [-> | []]]]]];
    rewrite (get_not_dict d _ v _ _ Hv Hnd);
    repeat match goal with
    | |- context [rbind (Py.get ?a ?b ?c) _] => destruct (Py.get a b c)
    end; simpl; eauto.
Qed.

Lemma get_status_default_on_malformed_document_witness :
  get_status
    (enable_apis (manager_of Mem.empty) "TERP" ["analytics"] bad_config
       "2026-01-01T00:00:00").2 "TERP"
  = Return (status_default "TERP").
Proof.
  rewrite enable_apis_mem. simpl.
  apply (get_status_default_on_malformed_document _ "TERP"
           (enable_document "TERP" ["analytics"] bad_config
              "2026-01-01T00:00:00")
           "analytics" (VStr "on")).
  - simpl. unfold Mem.read. simpl. by rewrite lookup_insert_eq.
  - unfold known_services. rewrite !elem_of_cons. tauto.
  - vm_compute. reflexivity.
  - discriminate.
Defined.

(** The status of a document whose [apis] entry and settings are dicts. *)
Lemma status_found_well_typed pc d :
  (∀ k v, k ∈ "apis" :: known_services → d !! k = Some v → ∃ m, v = VDict m) →
  status_found pc d
  = Return
      (<["productCode" := VStr pc]>
      (<["productName" := Py.dict_get_none d "productName"]>
      (<["enabledServices" := default (VList []) (enabled_of d)]>
      (<["analytics" := settings_flag d "analytics"]>
      (<["tags" := settings_flag d "tags"]>
      (<["adsense" := settings_flag d "adsense"]>
      (<["ads" := settings_flag d "ads"]>
      (<["updatedAt" := Py.dict_get_none d "updatedAt"]> ∅)))))))).
Proof.
  intros Hdict.
  assert (∀ k, k ∈ "apis" :: known_services →
               ∀ v, d !! k = Some v → ∃ m, v = VDict m) as Hk by eauto.
  unfold status_found.
  rewrite (get_enabled_field d "apis"), (get_enabled_field d "analytics"),
    (get_enabled_field d "tags"), (get_enabled_field d "adsense"),
    (get_enabled_field d "ads")
    by (apply Hk; unfold known_services; rewrite !elem_of_cons; tauto).
  simpl. do 4 f_equal. unfold enabled_of.
  by destruct (d !! "apis") as [[]|].
Qed.

Lemma status_lookup_flag pc d s (name enabled updated : value) :
  s ∈ known_services →
  (<["productCode" := VStr pc]>
  (<["productName" := name]>
  (<["enabledServices" := enabled]>
  (<["analytics" := settings_flag d "analytics"]>
  (<["tags" := settings_flag d "tags"]>
  (<["adsense" := settings_flag d "adsense"]>
  (<["ads" := settings_flag d "ads"]>
  (<["updatedAt" := updated]> (∅ : dict))))))))) !! s
  = Some (settings_flag d s).
Proof.
  intros [-> | [-> | [-> | ->]]]%known_services_cases;
    by rewrite !lookup_insert_ne, lookup_insert_eq by done.
Qed.

Lemma enable_document_well_typed pc services config now :
  (∀ s v, s ∈ known_services → config !! s = Some v → ∃ m, v = VDict m) →
  ∀ k v, k ∈ "apis" :: known_services →
         enable_document pc services config now !! k = Some v →
         ∃ m, v = VDict m.
Proof.
  intros Hcfg k v [-> | Hk]%elem_of_cons.
  - rewrite enable_document_apis. intros [= <-]. eauto.
  - rewrite (enable_document_service _ _ _ _ _ Hk).
    destruct (Py.str_in k services); [|done].
    unfold Py.dict_get. destruct (config !! k) as [w|] eqn:Hw; simpl.
    + intros [= <-]. eauto.
    + intros [= <-]. eauto.
Qed.

(** X3: what [enable_apis] writes, [get_status] reads back.  When the
    settings passed for the four services are dicts, the status after the
    call has the product code, the product name of the request (the product
    code without one), the services and the time stamp of the call; the flag
    of a service is the [enabled] field of the settings passed for it when
    the service is listed, and [False] otherwise. *)
Theorem get_status_after_enable
    (c : Mem.t) (pc : string) (services : list string) (config : dict)
    (now : string) :
  (∀ s v, s ∈ known_services → config !! s = Some v → ∃ m, v = VDict m) →
  ∃ st,
    get_status (enable_apis (manager_of c) pc services config now).2 pc
      = Return st ∧
    st !! "productCode" = Some (VStr pc) ∧
    st !! "productName" = Some (default (VStr pc) (config !! "productName")) ∧
    st !! "enabledServices" = Some (VList (VStr <$> services)) ∧
    st !! "updatedAt" = Some (VStr now) ∧
    ∀ s, s ∈ known_services →
      st !! s = Some (if bool_decide (s ∈ services)
                      then settings_flag config s else VBool false).
Proof.
  intros Hcfg. rewrite enable_apis_mem. simpl.
  rewrite get_status_mem. simpl. rewrite lookup_insert_eq.
  rewrite status_found_well_typed by by apply enable_document_well_typed.
  eexists. split; [reflexivity|].
  split; [apply lookup_insert_eq|].
  split.
  { rewrite lookup_insert_ne, lookup_insert_eq by done.
    unfold Py.dict_get_none. by rewrite enable_document_productName. }
  split.
  { rewrite !lookup_insert_ne, lookup_insert_eq by done.
    by rewrite enabled_of_enable_document. }
  split.
  { rewrite !lookup_insert_ne, lookup_insert_eq by done.
    unfold Py.dict_get_none. by rewrite enable_document_updatedAt. }
  intros s Hs. rewrite status_lookup_flag by done. f_equal.
  unfold settings_flag at 1.
  rewrite (enable_document_service _ _ _ _ _ Hs). unfold Py.str_in.
  case_bool_decide; [|done].
  unfold settings_flag, Py.dict_get.
  destruct (config !! s) as [v|] eqn:Hv; [|done]. simpl.
  by destruct (Hcfg s v Hs Hv) as [m ->].
Qed.

Lemma get_status_after_enable_witness :
  ∃ st,
    get_status
      (enable_apis (manager_of Mem.empty) "TEST" ["analytics"] test_config
         "2026-01-01T00:00:00").2 "TEST" = Return st ∧
    st !! "productName" = Some (VStr "Test Product") ∧
    st !! "enabledServices" = Some (VList [VStr "analytics"]) ∧
    st !! "analytics" = Some (VBool true) ∧
    st !! "tags" = Some (VBool false).
Proof.
  destruct (get_status_after_enable Mem.empty "TEST" ["analytics"]
              test_config "2026-01-01T00:00:00")
    as (st & Hst & _ & Hname & Hen & _ & Hflag).
  - intros s v [-> | [-> | [-> | ->]]]%known_services_cases;
      vm_compute; intros [= <-]; eauto.
  - exists st. split; [exact Hst|]. split; [exact Hname|].
    split; [exact Hen|]. split.
    + apply (Hflag "analytics"). unfold known_services.
      rewrite !elem_of_cons. tauto.
    + apply (Hflag "tags"). unfold known_services.
      rewrite !elem_of_cons. tauto.
Defined.

(** X4: the settings [enable_apis] stores for a service of the vocabulary
    are those of the request; a listed service without settings in the
    request gets an empty dict, and settings sent for a service that is not
    listed are not stored. *)
Theorem enable_apis_settings_from_request
    (c : Mem.t) (pc : string) (services : list string) (config : dict)
    (now : string) (s : string) :
  s ∈ known_services →
  ∃ d,
    stored (enable_apis (manager_of c) pc services config now).2 pc = Some d ∧
    d !! s = (if bool_decide (s ∈ services)
              then Some (default (VDict ∅) (config !! s)) else None).
Proof.
  intros Hs. rewrite enable_apis_mem. simpl.
  eexists. split; [apply stored_insert|].
  by rewrite (enable_document_service _ _ _ _ _ Hs).
Qed.

Lemma enable_apis_settings_from_request_witness :
  ∃ d,
    stored
      (enable_apis (manager_of Mem.empty) "GRID" ["analytics"; "tags"]
         grid_config "2026-01-01T00:00:00").2 "GRID" = Some d ∧
    d !! "analytics" = Some (VDict {[ "propertyId" := VStr "G-1" ]}) ∧
    d !! "tags" = Some (VDict ∅) ∧
    d !! "ads" = None.
Proof.
  pose proof (enable_apis_settings_from_request Mem.empty "GRID"
                ["analytics"; "tags"] grid_config "2026-01-01T00:00:00")
    as Hx.
  assert (∀ s, s ∈ ["analytics"; "tags"; "ads"] → s ∈ known_services) as Hk.
  { intros s. unfold known_services. rewrite !elem_of_cons, !elem_of_nil.
    tauto. }
  destruct (Hx "analytics") as (d & Hd & Ha);
    [apply Hk; rewrite !elem_of_cons; tauto|].
  destruct (Hx "tags") as (d2 & Hd2 & Ht);
    [apply Hk; rewrite !elem_of_cons; tauto|].
  destruct (Hx "ads") as (d3 & Hd3 & Hads);
    [apply Hk; rewrite !elem_of_cons; tauto|].
  rewrite Hd in Hd2, Hd3. injection Hd2 as <-. injection Hd3 as <-.
  exists d. split; [exact Hd|]. split; [exact Ha|].
  split; [exact Ht | exact Hads].
Defined.

(** ** One product at a time *)

Lemma key_ne (pc q : string) (i j : string) : q ≠ pc → (pc, i) ≠ (q, j).
Proof. intros Hne [= ->]. done. Qed.

(** X5: [enable_apis] for one product changes neither the document nor the
    status of any other product code, a code that differs in letter case
    only included (both share the config id, not the partition key). *)
Theorem enable_apis_other_products_unchanged
    (c : Mem.t) (pc : string) (services : list string) (config : dict)
    (now : string) (q : string) :
  q ≠ pc →
  stored (enable_apis (manager_of c) pc services config now).2 q
    = stored (manager_of c) q ∧
  get_status (enable_apis (manager_of c) pc services config now).2 q
    = get_status (manager_of c) q.
Proof.
  intros Hne. rewrite enable_apis_mem. simpl. split.
  - unfold stored; simpl. by apply lookup_insert_ne, key_ne.
  - rewrite !get_status_mem. simpl.
    by rewrite lookup_insert_ne by by apply key_ne.
Qed.

Lemma enable_apis_other_products_unchanged_witness :
  config_id "terp" = config_id "TERP" ∧
  get_status
    (enable_apis (manager_of Mem.empty) "TERP" ["analytics"] test_config
       "2026-01-01T00:00:00").2 "terp"
  = Return (status_default "terp").
Proof.
  split; [reflexivity|].
  destruct (enable_apis_other_products_unchanged Mem.empty "TERP"
              ["analytics"] test_config "2026-01-01T00:00:00" "terp")
    as [_ ->]; [discriminate|].
  reflexivity.
Defined.

(** X6: on a well-formed container, [disable_apis] for one product changes
    neither the document nor the status of any other product code, whether
    the call returns or raises. *)
Theorem disable_apis_other_products_unchanged
    (c : Mem.t) (pc : string) (services : list string) (now : string)
    (q : string) :
  wf_store c →
  q ≠ pc →
  stored (disable_apis (manager_of c) pc services now).2 q
    = stored (manager_of c) q ∧
  get_status (disable_apis (manager_of c) pc services now).2 q
    = get_status (manager_of c) q.
Proof.
  intros Hwf Hne.
  destruct (Mem.items c !! (pc, config_id pc)) as [d|] eqn:Hd.
  - destruct (disable_apis_wf c pc services now d Hwf Hd)
      as (apis & names & _ & _ & ->).
    simpl. split.
    + unfold stored; simpl. by apply lookup_insert_ne, key_ne.
    + rewrite !get_status_mem. simpl.
      by rewrite lookup_insert_ne by by apply key_ne.
  - unfold manager_of.
    by rewrite (disable_apis_read_raises _ _ _ _ _ (mem_read_absent _ _ Hd)).
Qed.

Lemma disable_apis_other_products_unchanged_witness :
  stored
    (disable_apis (manager_of terp_store) "terp" ["analytics"]
       "2026-01-02T00:00:00").2 "TERP"
  = stored (manager_of terp_store) "TERP".
Proof.
  apply (disable_apis_other_products_unchanged terp_store "terp"
           ["analytics"] "2026-01-02T00:00:00" "TERP").
  - exact wf_store_terp.
  - discriminate.
Defined.

(** ** Status flags across [disable_apis] *)

Lemma status_found_flags_ext pc d d' en en' :
  (∀ s, s ∈ known_services → d' !! s = d !! s) →
  Py.get (Py.dict_get d "apis" (VDict ∅)) "enabled" (VList []) = Return en →
  Py.get (Py.dict_get d' "apis" (VDict ∅)) "enabled" (VList []) = Return en' →
  match status_found pc d, status_found pc d' with
  | inr st, inr st' => ∀ s, s ∈ known_services → st' !! s = st !! s
  | inl _, inl _ => True
  | _, _ => False
  end.
Proof.
  intros Hsame Hen Hen'.
  assert (∀ s, s ∈ known_services →
               Py.dict_get d' s (VDict ∅) = Py.dict_get d s (VDict ∅)) as Hget.
  { intros s Hs. unfold Py.dict_get. by rewrite (Hsame s Hs). }
  unfold status_found. rewrite Hen, Hen'. simpl.
  rewrite !Hget by (unfold known_services; rewrite !elem_of_cons; tauto).
  destruct (Py.get (Py.dict_get d "analytics" _) _ _); [done|].
  destruct (Py.get (Py.dict_get d "tags" _) _ _); [done|].
  destruct (Py.get (Py.dict_get d "adsense" _) _ _); [done|].
  destruct (Py.get (Py.dict_get d "ads" _) _ _); [done|].
  simpl.
  intros s [-> | [-> | [-> | ->]]]%known_services_cases;
    by rewrite !lookup_insert_ne, !lookup_insert_eq by done.
Qed.

(** X7: on a well-formed container, [disable_apis] changes none of the four
    flags [get_status] reports for the product: a service that was reported
    as enabled through its settings is still reported so after it has been
    removed from the enabled services. *)
Theorem disable_apis_keeps_status_flags
    (c : Mem.t) (pc : string) (services : list string) (now : string)
    (s : string) :
  wf_store c →
  s ∈ known_services →
  ∃ st st',
    get_status (manager_of c) pc = Return st ∧
    get_status (disable_apis (manager_of c) pc services now).2 pc
      = Return st' ∧
    st' !! s = st !! s.
Proof.
  intros Hwf Hs.
  destruct (Mem.items c !! (pc, config_id pc)) as [d|] eqn:Hd.
  - destruct (disable_apis_wf c pc services now d Hwf Hd)
      as (apis & names & Hapis & Hen & ->).
    simpl. rewrite !get_status_mem. simpl. rewrite lookup_insert_eq, Hd.
    pose proof (status_found_flags_ext pc d
      (<["updatedAt" := VStr now]>
         (<["apis" :=
              VDict (<["enabled" :=
                VList (VStr <$> filter (λ s, s ∉ services) names)]> apis)]> d))
      (VList (VStr <$> names))
      (VList (VStr <$> filter (λ s, s ∉ services) names))) as Hext.
    destruct (status_found pc d) as [e|st];
      destruct (status_found pc _) as [e'|st'].
    + eexists _, _. split; [reflexivity|]. split; [reflexivity|]. done.
    + exfalso. apply Hext.
      * intros s' [Hs1 Hs2]%known_services_not_apis.
        by rewrite !lookup_insert_ne.
      * unfold Py.dict_get. rewrite Hapis. simpl. unfold Py.dict_get.
        by rewrite Hen.
      * unfold Py.dict_get.
        rewrite lookup_insert_ne, lookup_insert_eq by done. simpl.
        unfold Py.dict_get. by rewrite lookup_insert_eq.
    + exfalso. apply Hext.
      * intros s' [Hs1 Hs2]%known_services_not_apis.
        by rewrite !lookup_insert_ne.
      * unfold Py.dict_get. rewrite Hapis. simpl. unfold Py.dict_get.
        by rewrite Hen.
      * unfold Py.dict_get.
        rewrite lookup_insert_ne, lookup_insert_eq by done. simpl.
        unfold Py.dict_get. by rewrite lookup_insert_eq.
    + eexists _, _. split; [reflexivity|]. split; [reflexivity|].
      apply Hext; [| | |done].
      * intros s' [Hs1 Hs2]%known_services_not_apis.
        by rewrite !lookup_insert_ne.
      * unfold Py.dict_get. rewrite Hapis. simpl. unfold Py.dict_get.
        by rewrite Hen.
      * unfold Py.dict_get.
        rewrite lookup_insert_ne, lookup_insert_eq by done. simpl.
        unfold Py.dict_get. by rewrite lookup_insert_eq.
  - unfold manager_of.
    rewrite (disable_apis_read_raises _ _ _ _ _ (mem_read_absent _ _ Hd)).
    simpl. fold (manager_of c). rewrite get_status_mem, Hd.
    eexists _, _. by split; [reflexivity|].
Qed.

Lemma wf_store_test : wf_store test_store.
Proof.
  apply (wf_store_insert Mem.empty); [apply wf_store_empty|].
  apply wf_doc_enable_document.
Defined.

Lemma disable_apis_keeps_status_flags_witness :
  ∃ st st',
    get_status (manager_of test_store) "TEST" = Return st ∧
    get_status
      (disable_apis (manager_of test_store) "TEST" ["analytics"]
         "2026-01-02T00:00:00").2 "TEST" = Return st' ∧
    st' !! "analytics" = st !! "analytics".
Proof.
  apply (disable_apis_keeps_status_flags test_store "TEST" ["analytics"]
           "2026-01-02T00:00:00" "analytics").
  - exact wf_store_test.
  - unfold known_services. rewrite !elem_of_cons. tauto.
Defined.

(** ** Calls of [disable_apis] in a row *)

Lemma filter_not_in_app (s1 s2 names : list string) :
  filter (λ s, s ∉ s2) (filter (λ s, s ∉ s1) names)
  = filter (λ s, s ∉ (s1 ++ s2)%list) names.
Proof.
  rewrite list_filter_filter. apply filter_iff_elem.
  intros x _. rewrite not_elem_of_app. tauto.
Qed.

Lemma filter_not_in_twice (s names : list string) :
  filter (λ x, x ∉ s) (filter (λ x, x ∉ s) names)
  = filter (λ x, x ∉ s) names.
Proof.
  rewrite list_filter_filter. apply filter_iff_elem. intros x _. tauto.
Qed.

(** Two calls for the same product, on a well-formed container that holds
    its document. *)
Lemma disable_apis_twice c pc s1 s2 t1 t2 d apis names :
  wf_store c →
  Mem.items c !! (pc, config_id pc) = Some d →
  d !! "apis" = Some (VDict apis) →
  apis !! "enabled" = Some (VList (VStr <$> names)) →
  let remaining :=
    VList (VStr <$> filter (λ s, s ∉ s2) (filter (λ s, s ∉ s1) names)) in
  disable_apis (disable_apis (manager_of c) pc s1 t1).2 pc s2 t2
  = (Return
       (<["success" := VBool true]>
       (<["productCode" := VStr pc]>
       (<["disabledServices" := VList (VStr <$> s2)]>
       (<["remainingServices" := remaining]> ∅)))),
     manager_of
       {| Mem.items :=
            <[(pc, config_id pc) :=
                <["updatedAt" := VStr t2]>
                  (<["apis" := VDict (<["enabled" := remaining]> apis)]> d)]>
              (Mem.items c) |}).
Proof.
  intros Hwf Hd Hapis Hen remaining.
  rewrite (disable_apis_mem c pc s1 t1 d apis names Hd (Hwf _ _ _ Hd) Hapis Hen).
  simpl.
  rewrite (disable_apis_mem _ pc s2 t2
             (<["updatedAt" := VStr t1]>
                (<["apis" :=
                     VDict (<["enabled" :=
                       VList (VStr <$> filter (λ s, s ∉ s1) names)]> apis)]> d))
             (<["enabled" := VList (VStr <$> filter (λ s, s ∉ s1) names)]> apis)
             (filter (λ s, s ∉ s1) names)).
  - simpl. do 3 f_equal. rewrite insert_insert_eq. f_equal.
    rewrite (insert_insert_ne _ "apis" "updatedAt") by done.
    by rewrite !insert_insert_eq.
  - apply lookup_insert_eq.
  - apply wf_doc_disabled, (Hwf _ _ _ Hd).
  - by rewrite lookup_insert_ne, lookup_insert_eq.
  - apply lookup_insert_eq.
Qed.

Lemma wf_doc_parts c pc d :
  wf_store c →
  Mem.items c !! (pc, config_id pc) = Some d →
  ∃ apis names,
    d !! "apis" = Some (VDict apis) ∧
    apis !! "enabled" = Some (VList (VStr <$> names)).
Proof.
  intros Hwf Hd.
  destruct (Hwf _ _ _ Hd) as (_ & _ & names & (apis & ? & ?)%enabled_of_inv).
  eauto.
Qed.

(** X8: on a well-formed container, repeating a [disable_apis] call gives
    what the single call at the later time gives: the same outcome (the same
    remaining services, or the same not-found error) and the same
    container. *)
Theorem disable_apis_idempotent
    (c : Mem.t) (pc : string) (services : list string) (t1 t2 : string) :
  wf_store c →
  disable_apis (disable_apis (manager_of c) pc services t1).2 pc services t2
  = disable_apis (manager_of c) pc services t2.
Proof.
  intros Hwf.
  destruct (Mem.items c !! (pc, config_id pc)) as [d|] eqn:Hd.
  - destruct (wf_doc_parts c pc d Hwf Hd) as (apis & names & Hapis & Hen).
    rewrite (disable_apis_twice c pc services services t1 t2 d apis names)
      by done.
    rewrite (disable_apis_mem c pc services t2 d apis names)
      by (try done; by apply (Hwf _ _ _ Hd)).
    simpl. by rewrite filter_not_in_twice.
  - unfold manager_of.
    by rewrite !(disable_apis_read_raises _ _ _ _ _ (mem_read_absent _ _ Hd)).
Qed.

Lemma disable_apis_idempotent_witness :
  disable_apis
    (disable_apis (manager_of terp_store) "TERP" ["analytics"]
       "2026-01-02T00:00:00").2 "TERP" ["analytics"] "2026-01-03T00:00:00"
  = disable_apis (manager_of terp_store) "TERP" ["analytics"]
      "2026-01-03T00:00:00".
Proof.
  apply (disable_apis_idempotent terp_store "TERP" ["analytics"]).
  exact wf_store_terp.
Defined.

(** X9: on a well-formed container, two [disable_apis] calls in a row leave
    the container that one call with both lists, at the later time,
    leaves. *)
Theorem disable_apis_compose
    (c : Mem.t) (pc : string) (s1 s2 : list string) (t1 t2 : string) :
  wf_store c →
  (disable_apis (disable_apis (manager_of c) pc s1 t1).2 pc s2 t2).2
  = (disable_apis (manager_of c) pc (s1 ++ s2)%list t2).2.
Proof.
  intros Hwf.
  destruct (Mem.items c !! (pc, config_id pc)) as [d|] eqn:Hd.
  - destruct (wf_doc_parts c pc d Hwf Hd) as (apis & names & Hapis & Hen).
    rewrite (disable_apis_twice c pc s1 s2 t1 t2 d apis names) by done.
    rewrite (disable_apis_mem c pc (s1 ++ s2)%list t2 d apis names)
      by (try done; by apply (Hwf _ _ _ Hd)).
    simpl. by rewrite filter_not_in_app.
  - unfold manager_of.
    by rewrite !(disable_apis_read_raises _ _ _ _ _ (mem_read_absent _ _ Hd)).
Qed.

Lemma disable_apis_compose_witness :
  (disable_apis
     (disable_apis (manager_of terp_store) "TERP" ["analytics"]
        "2026-01-02T00:00:00").2 "TERP" ["tags"] "2026-01-03T00:00:00").2
  = (disable_apis (manager_of terp_store) "TERP" ["analytics"; "tags"]
       "2026-01-03T00:00:00").2.
Proof.
  apply (disable_apis_compose terp_store "TERP" ["analytics"] ["tags"]).
  exact wf_store_terp.
Defined.

(** ** Failures of the container and of the document *)

(** [disable_apis] once the read has returned a document. *)
Lemma disable_apis_read_returns {C : Type} `{!ContainerProxy C}
    (c : C) pc services now d :
  read_item c (config_id pc) pc = Return d →
  disable_apis {| container := Some c |} pc services now
  = match disable_update d services now with
    | inl e => (Raise e, {| container := Some c |})
    | inr (enabled, config) =>
        match upsert_item c config with
        | inl e => (Raise e, {| container := Some c |})
        | inr c' =>
            (Return
               (<["success" := VBool true]>
               (<["productCode" := VStr pc]>
               (<["disabledServices" := VList (VStr <$> services)]>
               (<["remainingServices" := VList enabled]> ∅)))),
             {| container := Some c' |})
        end
    end.
Proof.
  intros Hread. unfold disable_apis.
  cbn [container]. fold (config_id pc). by rewrite Hread.
Qed.

(** X10: on a replica that refuses writes, [enable_apis] raises the error
    of the container as it is and [get_status] answers as on the replica's
    data; on well-formed data [disable_apis] raises the error of the write
    for a configured product and not-found for another one.  The manager is
    left as it was in each case. *)
Theorem readonly_container_surfaces_write_error
    (r : Mem.t) (pc : string) (services : list string) (config : dict)
    (now : string) :
  let m := {| container := Some (ReadOnly.Build r) |} in
  enable_apis m pc services config now
    = (Raise (CosmosHttpResponseError 403), m) ∧
  get_status m pc = get_status (manager_of r) pc ∧
  (wf_store r →
   disable_apis m pc services now
   = (Raise match Mem.items r !! (pc, config_id pc) with
            | Some _ => CosmosHttpResponseError 403
            | None => CosmosResourceNotFoundError
            end, m)).
Proof.
  simpl. split; [done|]. split; [done|].
  intros Hwf.
  destruct (Mem.items r !! (pc, config_id pc)) as [d|] eqn:Hd.
  - destruct (wf_doc_parts r pc d Hwf Hd) as (apis & names & Hapis & Hen).
    rewrite (disable_apis_read_returns _ pc services now d)
      by (simpl; unfold ReadOnly.read, Mem.read; simpl; by rewrite Hd).
    by rewrite (disable_update_list d services now apis _ Hapis Hen).
  - apply disable_apis_read_raises.
    simpl. unfold ReadOnly.read, Mem.read. simpl. by rewrite Hd.
Qed.

Lemma readonly_container_surfaces_write_error_witness :
  disable_apis {| container := Some (ReadOnly.Build terp_store) |} "TERP"
    ["analytics"] "2026-01-02T00:00:00"
  = (Raise (CosmosHttpResponseError 403),
     {| container := Some (ReadOnly.Build terp_store) |}).
Proof.
  destruct (readonly_container_surfaces_write_error terp_store "TERP"
              ["analytics"] ∅ "2026-01-02T00:00:00") as (_ & _ & Hdis).
  rewrite (Hdis wf_store_terp). unfold terp_store. simpl.
  by rewrite lookup_insert_eq.
Defined.

(** X11: [disable_apis] on a document without an [apis] entry raises
    [KeyError] for that key, and on a document whose [apis] entry is not a
    dict it raises [AttributeError]; nothing is written in either case. *)
Theorem disable_apis_malformed_document
    {C : Type} `{!ContainerProxy C} (c : C) (pc : string)
    (services : list string) (now : string) (d : dict) :
  read_item c (config_id pc) pc = Return d →
  (d !! "apis" = None →
   disable_apis {| container := Some c |} pc services now
   = (Raise (KeyError "apis"), {| container := Some c |})) ∧
  (∀ v, d !! "apis" = Some v → (∀ m, v ≠ VDict m) →
   disable_apis {| container := Some c |} pc services now
   = (Raise (AttributeError "get"), {| container := Some c |})).
Proof.
  intros Hread. split.
  - intros Hnone. rewrite (disable_apis_read_returns c pc services now d Hread).
    unfold disable_update, Py.dict_get, Py.getitem.
    by rewrite Hnone.
  - intros v Hv Hnd.
    rewrite (disable_apis_read_returns c pc services now d Hread).
    unfold disable_update.
    by rewrite (get_not_dict d "apis" v _ _ Hv Hnd).
Qed.

Lemma disable_apis_malformed_document_witness :
  disable_apis (manager_of legacy_store) "OLD" ["analytics"]
    "2026-01-02T00:00:00"
  = (Raise (KeyError "apis"), manager_of legacy_store).
Proof.
  destruct (disable_apis_malformed_document legacy_store "OLD"
              ["analytics"] "2026-01-02T00:00:00" legacy_doc) as [Hnone _].
  - reflexivity.
  - apply Hnone. reflexivity.
Defined.

(** ** Containers the manager produces *)

Lemma store_inv_insert c pc d :
  store_inv c →
  wf_doc pc (config_id pc) d →
  (∃ t, d !! "updatedAt" = Some (VStr t)) →
  is_Some (d !! "productName") →
  store_inv
    {| Mem.items := <[(pc, config_id pc) := d]> (Mem.items c) |}.
Proof.
  intros Hinv Hwf Ht Hname pk i d'. simpl. rewrite lookup_insert.
  case_decide; simplify_eq; [by intros [= <-] | apply Hinv].
Qed.

(** X12: in every container produced from the empty one by calls of
    [enable_apis] and [disable_apis] that return, each document is filed
    under its product code and the config id of that code, repeats both in
    its [id] and [productCode] fields, has a list of names as enabled
    services, a time stamp and a product name. *)
Theorem reachable_store_inv (c : Mem.t) : reachable c → store_inv c.
Proof.
  induction 1 as [|c c' pc services config now r Hreach IH Hcall
                  |c c' pc services now r Hreach IH Hcall].
  - intros pk i d. simpl. by rewrite lookup_empty.
  - rewrite enable_apis_mem in Hcall. injection Hcall as _ <-.
    apply store_inv_insert; [done|apply wf_doc_enable_document| |].
    + eexists. apply enable_document_updatedAt.
    + eexists. apply enable_document_productName.
  - pose proof (reachable_wf_store c Hreach) as Hwf.
    destruct (Mem.items c !! (pc, config_id pc)) as [d|] eqn:Hd.
    + destruct (disable_apis_wf c pc services now d Hwf Hd)
        as (apis & names & _ & _ & Heq).
      rewrite Heq in Hcall. injection Hcall as _ <-.
      destruct (IH _ _ _ Hd) as (_ & Hwd & _ & Hname).
      apply store_inv_insert; [done|by apply wf_doc_disabled| |].
      * eexists. apply lookup_insert_eq.
      * by rewrite !lookup_insert_ne.
    + unfold manager_of in Hcall.
      by rewrite (disable_apis_read_raises _ _ _ _ _
                    (mem_read_absent _ _ Hd)) in Hcall.
Qed.

Lemma reachable_terp_store : reachable terp_store.
Proof.
  apply (reachable_enable Mem.empty terp_store "TERP" ["analytics"; "tags"]
           terp_config "2026-01-01T00:00:00"
           (<["success" := VBool true]>
           (<["productCode" := VStr "TERP"]>
           (<["enabledServices" := VList (VStr <$> ["analytics"; "tags"])]>
           (<["configId" := VStr (config_id "TERP")]> ∅)))));
    [apply reachable_empty | apply enable_apis_mem].
Defined.

Lemma reachable_store_inv_witness : store_inv terp_store.
Proof. exact (reachable_store_inv terp_store reachable_terp_store). Defined.

(** X13: [enable_apis] adds at most the key of its product to the keys of
    the container, and on a well-formed container [disable_apis] leaves the
    set of keys as it was: it neither creates nor deletes a document. *)
Theorem operations_on_keys
    (c : Mem.t) (pc : string) (services : list string) (config : dict)
    (now : string) :
  dom (items_of (enable_apis (manager_of c) pc services config now).2)
    = {[ (pc, config_id pc) ]} ∪ dom (Mem.items c) ∧
  (wf_store c →
   dom (items_of (disable_apis (manager_of c) pc services now).2)
     = dom (Mem.items c)).
Proof.
  split.
  - rewrite enable_apis_mem. simpl. apply dom_insert_L.
  - intros Hwf.
    destruct (Mem.items c !! (pc, config_id pc)) as [d|] eqn:Hd.
    + destruct (disable_apis_wf c pc services now d Hwf Hd)
        as (apis & names & _ & _ & ->).
      simpl. apply dom_insert_lookup_L. by rewrite Hd.
    + unfold manager_of.
      by rewrite (disable_apis_read_raises _ _ _ _ _
                    (mem_read_absent _ _ Hd)).
Qed.

Lemma operations_on_keys_witness :
  dom (items_of
         (disable_apis (manager_of terp_store) "GRID" ["ads"]
            "2026-01-02T00:00:00").2)
  = dom (Mem.items terp_store).
Proof.
  destruct (operations_on_keys terp_store "GRID" ["ads"] ∅
              "2026-01-02T00:00:00") as [_ Hdis].
  exact (Hdis wf_store_terp).
Defined.

(** * Start-up and the HTTP facade *)

(** ** Construction of the manager *)

(** X14: [ServiceManager()] never fails.  When the four SDK calls succeed
    the manager holds the container they give (database and endpoint from
    the environment, or the defaults); when any of them raises, the manager
    is built without a container and each of its operations raises the
    "not initialized" exception. *)
Theorem ServiceManager_new_degraded_mode
    {Credential Client Database C : Type} `{!ContainerProxy C}
    (sdk : CosmosSdk Credential Client Database C)
    (environ : gmap string string)
    (pc : string) (services : list string) (config : dict) (now : string) :
  let m := ServiceManager_new sdk environ in
  match connect sdk environ with
  | inr c => m = {| container := Some c |}
  | inl _ =>
      m = uninitialized ∧
      enable_apis m pc services config now
        = (Raise (Exception "Cosmos DB not initialized"), m) ∧
      disable_apis m pc services now
        = (Raise (Exception "Cosmos DB not initialized"), m) ∧
      get_status m pc = Raise (Exception "Cosmos DB not initialized")
  end.
Proof.
  unfold ServiceManager_new, _initialize_cosmos, connect. simpl.
  destruct (DefaultAzureCredential sdk) as [e|cred]; simpl; [done|].
  destruct (CosmosClient sdk _ cred) as [e|client]; simpl; [done|].
  destruct (get_database_client sdk client _) as [e|db]; simpl; [done|].
  by destruct (get_container_client sdk db _) as [e|c].
Qed.

(** ** The subscription key *)

Lemma verify_nonempty (k : string) :
  k ≠ "" → Main.verify_subscription_key k = Main.Respond k.
Proof. by destruct k. Qed.

(** X15: both configuration routes are closed without a subscription key
    (422 without the header, 401 with an empty one) and then leave the
    manager untouched; with a key that is not empty the answer does not
    depend on the key. *)
Theorem subscription_key_gate
    {C : Type} `{!ContainerProxy C} (str : exn → string)
    (mgr : ServiceManager C) (request : Main.APIEnableRequest)
    (now : string) (pc : string) :
  Main.post_apis_enable str mgr None request now
    = (Main.RequestValidationError, mgr) ∧
  Main.post_apis_enable str mgr (Some "") request now
    = (Main.HTTPException 401 "Missing subscription key", mgr) ∧
  Main.get_apis_status str mgr None pc = Main.RequestValidationError ∧
  Main.get_apis_status str mgr (Some "") pc
    = Main.HTTPException 401 "Missing subscription key" ∧
  ∀ k k', k ≠ "" → k' ≠ "" →
    Main.post_apis_enable str mgr (Some k) request now
      = Main.post_apis_enable str mgr (Some k') request now ∧
    Main.get_apis_status str mgr (Some k) pc
      = Main.get_apis_status str mgr (Some k') pc.
Proof.
  do 4 (split; [done|]). intros k k' Hk Hk'.
  unfold Main.post_apis_enable, Main.get_apis_status, Main.depends_key.
  by rewrite !verify_nonempty.
Qed.

Lemma subscription_key_gate_witness :
  Main.get_apis_status exn_text (manager_of terp_store) (Some "key-1") "TERP"
  = Main.get_apis_status exn_text (manager_of terp_store) (Some "other")
      "TERP".
Proof.
  destruct (subscription_key_gate exn_text (manager_of terp_store)
              {| Main.productCode := "TERP"; Main.services := [];
                 Main.config := ∅ |} "2026-01-02T00:00:00" "TERP")
    as (_ & _ & _ & _ & Hany).
  destruct (Hany "key-1" "other") as [_ Hst]; [discriminate..|].
  exact Hst.
Defined.

(** ** The configuration routes *)

Lemma get_status_some_returns {C : Type} `{!ContainerProxy C} (c : C) pc :
  ∃ st, get_status {| container := Some c |} pc = Return st ∧
        st !! "productCode" = Some (VStr pc).
Proof.
  unfold get_status; simpl.
  destruct (read_item c _ pc) as [e|d]; simpl; [by eexists|].
  destruct (status_found pc d) as [e|st] eqn:Hst; [by eexists|].
  exists st. split; [done|]. by apply (status_found_keys pc d st "").
Qed.

(** X16: with a key, the status route answers 200 with a status for the
    product whenever the manager has a container, whatever the container
    does, and 500 with the "not initialized" message when it has none. *)
Theorem status_route_outcomes
    {C : Type} `{!ContainerProxy C} (str : exn → string)
    (mgr : ServiceManager C) (k : string) (pc : string) :
  k ≠ "" →
  (∀ msg, str (Exception msg) = msg) →
  match container mgr with
  | Some _ =>
      ∃ st,
        Main.get_apis_status str mgr (Some k) pc
          = Main.Respond
              (<["success" := VBool true]> (<["data" := VDict st]> ∅)) ∧
        st !! "productCode" = Some (VStr pc)
  | None =>
      Main.get_apis_status str mgr (Some k) pc
        = Main.HTTPException 500 "Cosmos DB not initialized"
  end.
Proof.
  intros Hk Hstr. destruct mgr as [[c|]]; simpl.
  - destruct (get_status_some_returns c pc) as (st & Hst & Hpc).
    exists st. split; [|done].
    unfold Main.get_apis_status, Main.depends_key.
    rewrite verify_nonempty by done.
    unfold Main.get_api_status. by rewrite Hst.
  - unfold Main.get_apis_status, Main.depends_key.
    rewrite verify_nonempty by done.
    unfold Main.get_api_status, get_status. simpl. by rewrite Hstr.
Qed.

Lemma status_route_outcomes_witness :
  Main.get_apis_status exn_text (uninitialized (C := Mem.t)) (Some "key-1")
    "TERP"
  = Main.HTTPException 500 "Cosmos DB not initialized".
Proof.
  apply (status_route_outcomes exn_text (uninitialized (C := Mem.t))
           "key-1" "TERP"); [discriminate | reflexivity].
Defined.



(** ** The report route *)

Lemma split_nonempty (sep : ascii) (s : string) : Str.split sep s ≠ [].
Proof.
  destruct s as [|c s]; simpl; [done|].
  case_decide; [done|]. by destruct (Str.split sep s).
Qed.

Lemma join_split (sep : ascii) (s : string) :
  Str.join (String sep EmptyString) (Str.split sep s) = s.
Proof.
  induction s as [|c s IH]; [done|]. simpl.
  pose proof (split_nonempty sep s) as Hne.
  case_decide as Hc.
  - subst c. destruct (Str.split sep s) as [|w ws]; [done|].
    change (String sep (Str.join (String sep EmptyString) (w :: ws))
            = String sep s).
    by rewrite IH.
  - destruct (Str.split sep s) as [|w ws]; [done|].
    rewrite <-IH. simpl. by destruct ws.
Qed.

Lemma split_no_sep (sep : ascii) (s : string) :
  Forall (λ w, sep ∉ Str.chars w) (Str.split sep s).
Proof.
  induction s as [|c s IH]; simpl.
  - constructor; [|done]. simpl. apply not_elem_of_nil.
  - case_decide as Hc.
    + constructor; [|done]. simpl. apply not_elem_of_nil.
    + destruct (Str.split sep s) as [|w ws].
      * constructor; [|done]. simpl.
        rewrite elem_of_cons, elem_of_nil. by intros [? | []].
      * apply Forall_cons in IH as [Hw Hws].
        constructor; [|done]. simpl. rewrite elem_of_cons.
        by intros [? | ?].
Qed.

Lemma truthy_nonempty (s : string) : Str.truthy s = true ↔ s ≠ "".
Proof. by destruct s. Qed.

(** X18: the report route is closed without a subscription key (422
    without the header, 401 with an empty key).  With a key it fails with
    500 and the message of [run_report] when the analytics data client is
    missing; otherwise it answers 200 and echoes the lists it parsed: the
    list of metrics is never empty and is ["activeUsers"] when the parameter
    is absent or empty, the list of dimensions is empty exactly when the
    parameter is absent or empty, and for a parameter that is not empty the
    names hold no comma and, joined by commas, give back the parameter
    unchanged (nothing is trimmed or dropped). *)
Theorem report_route_lists
    {AdminClient DataClient : Type} (str : exn → string)
    (mgr : AnalyticsManager AdminClient DataClient)
    (property_id start_date end_date : string)
    (dimensions metrics : option string) :
  Main.get_analytics_reports str mgr None property_id start_date end_date
    dimensions metrics = Main.RequestValidationError ∧
  Main.get_analytics_reports str mgr (Some "") property_id start_date end_date
    dimensions metrics
    = Main.HTTPException 401 "Missing subscription key" ∧
  ∀ k, k ≠ "" →
    match data_client mgr with
    | None =>
        Main.get_analytics_reports str mgr (Some k) property_id start_date
          end_date dimensions metrics
        = Main.HTTPException 500
            (str (Exception "Analytics Data client not initialized"))
    | Some _ =>
        ∃ report dl ml,
          Main.get_analytics_reports str mgr (Some k) property_id start_date
            end_date dimensions metrics
          = Main.Respond
              (<["success" := VBool true]> (<["data" := VDict report]> ∅)) ∧
          report !! "propertyId" = Some (VStr property_id) ∧
          report !! "dimensions" = Some (VList (VStr <$> dl)) ∧
          report !! "metrics" = Some (VList (VStr <$> ml)) ∧
          ml ≠ [] ∧
          (dl = [] ↔ dimensions = None ∨ dimensions = Some "") ∧
          (metrics = None ∨ metrics = Some "" → ml = ["activeUsers"]) ∧
          (∀ s, dimensions = Some s → s ≠ "" →
             Str.join "," dl = s ∧ Forall (λ w, ","%char ∉ Str.chars w) dl) ∧
          (∀ s, metrics = Some s → s ≠ "" →
             Str.join "," ml = s ∧ Forall (λ w, ","%char ∉ Str.chars w) ml)
    end.
Proof.
  split; [done|]. split; [done|]. intros k Hk.
  unfold Main.get_analytics_reports, Main.depends_key.
  rewrite verify_nonempty by done.
  unfold Main.run_analytics_report, run_report.
  destruct (data_client mgr) as [dc|]; [|done].
  eexists _, _, _. split; [reflexivity|].
  split; [apply lookup_insert_eq|].
  split; [by rewrite !lookup_insert_ne, lookup_insert_eq by done|].
  split; [by rewrite !lookup_insert_ne, lookup_insert_eq by done|].
  split.
  { destruct metrics as [s|]; [|done].
    destruct (Str.truthy s); [apply split_nonempty | done]. }
  split.
  { destruct dimensions as [s|]; [|by split; [left|]].
    destruct (Str.truthy s) eqn:Ht.
    - split; [by intros ?%split_nonempty|].
      apply truthy_nonempty in Ht. by intros [? | [= ?]].
    - split; [|done]. intros _. right. by destruct s. }
  split.
  { by intros [-> | ->]. }
  split.
  - intros s -> Hs. apply truthy_nonempty in Hs. rewrite Hs.
    split; [apply join_split | apply split_no_sep].
  - intros s -> Hs. apply truthy_nonempty in Hs. rewrite Hs.
    split; [apply join_split | apply split_no_sep].
Qed.

Lemma report_route_lists_witness :
  ∃ report dl ml,
    Main.get_analytics_reports (AdminClient := unit) exn_text
      {| admin_client := None; data_client := Some () |} (Some "key-1")
      "123" "7daysAgo" "today" (Some "country, city") None
    = Main.Respond
        (<["success" := VBool true]> (<["data" := VDict report]> ∅)) ∧
    report !! "dimensions" = Some (VList (VStr <$> dl)) ∧
    report !! "metrics" = Some (VList (VStr <$> ml)) ∧
    ml = ["activeUsers"] ∧
    Str.join "," dl = "country, city".
Proof.
  destruct (report_route_lists (AdminClient := unit) exn_text
    {| admin_client := None; data_client := Some () |}
    "123" "7daysAgo" "today" (Some "country, city") None) as (_ & _ & Hx).
  specialize (Hx "key-1"). cbn [data_client] in Hx.
  destruct Hx
    as (report & dl & ml & Hr & _ & Hd & Hm & _ & _ & Hdef & Hdims & _);
    [discriminate|].
  exists report, dl, ml. split; [exact Hr|]. split; [exact Hd|].
  split; [exact Hm|]. split; [apply Hdef; by left|].
  apply (Hdims "country, city"); [reflexivity | discriminate].
Defined.

(** * Status after [disable_apis] *)

(** X19: on a well-formed container, for a stored document whose settings
    are dicts, the status after [disable_apis] lists the former enabled
    services without the names passed, in their order, and carries the time
    of the call. *)
Theorem get_status_after_disable
    (c : Mem.t) (pc : string) (services : list string) (now : string)
    (d : dict) (names : list string) :
  wf_store c →
  Mem.items c !! (pc, config_id pc) = Some d →
  enabled_of d = Some (VList (VStr <$> names)) →
  (∀ s v, s ∈ known_services → d !! s = Some v → ∃ m, v = VDict m) →
  ∃ st,
    get_status (disable_apis (manager_of c) pc services now).2 pc
      = Return st ∧
    st !! "enabledServices"
      = Some (VList (VStr <$> filter (λ s, s ∉ services) names)) ∧
    st !! "updatedAt" = Some (VStr now).
Proof.
  intros Hwf Hd Hnames Htyped.
  destruct (disable_apis_wf c pc services now d Hwf Hd)
    as (apis & names' & Hapis & Hen & ->).
  assert (names' = names) as ->.
  { apply (enabled_of_names_inj d); [|done].
    unfold enabled_of. by rewrite Hapis. }
  simpl. rewrite get_status_mem. simpl. rewrite lookup_insert_eq.
  rewrite status_found_well_typed.
  - eexists. split; [reflexivity|]. split.
    + rewrite !lookup_insert_ne, lookup_insert_eq by done.
      unfold enabled_of.
      rewrite lookup_insert_ne, lookup_insert_eq by done.
      by rewrite lookup_insert_eq.
    + rewrite !lookup_insert_ne, lookup_insert_eq by done.
      unfold Py.dict_get_none. by rewrite lookup_insert_eq.
  - intros k v [-> | Hk]%elem_of_cons.
    + rewrite lookup_insert_ne, lookup_insert_eq by done.
      intros [= <-]. eauto.
    + destruct (known_services_not_apis k Hk) as [Hk1 Hk2].
      rewrite !lookup_insert_ne by done. by apply Htyped.
Qed.

Lemma get_status_after_disable_witness :
  ∃ st,
    get_status
      (disable_apis (manager_of terp_store) "TERP" ["analytics"]
         "2026-01-02T00:00:00").2 "TERP" = Return st ∧
    st !! "enabledServices" = Some (VList [VStr "tags"]) ∧
    st !! "updatedAt" = Some (VStr "2026-01-02T00:00:00").
Proof.
  apply (get_status_after_disable terp_store "TERP" ["analytics"]
           "2026-01-02T00:00:00"
           (enable_document "TERP" ["analytics"; "tags"] terp_config
              "2026-01-01T00:00:00")
           ["analytics"; "tags"]).
  - exact wf_store_terp.
  - apply lookup_insert_eq.
  - apply enabled_of_enable_document.
  - intros s v [-> | [-> | [-> | ->]]]%known_services_cases;
      vm_compute; intros [= <-]; eauto.
Defined.
